(** * Admin-EY: vendor traceability API (src/main.py, src/admin_main.py)

    A shallow embedding of the FastAPI handlers of the repository and of
    the MongoDB collections they talk to, followed by the properties of
    the failure-attribution and durability-scoring core.

    Modelling decisions, all local to this file:
    - a handler ([async def]) is a finite tree of database calls
      ([coroutine]); every [await] on a Motor call is one node, executed
      atomically by the store ([await_step]).  Running a tree to the end
      ([run]) is a sequential request; interleaving the nodes of several
      trees ([schedule]) is concurrent request handling;
    - a collection is the list of its documents in insertion order;
      [find_one] and [update_one] pick the first document that matches,
      and the positional operator [$] the first matching array element;
    - Python [int] is [Z].  The driver refuses to encode an [int]
      outside 64 bits: [insert_one] then raises and stores nothing.  The
      model has no such refusal; the properties of [add_batch] and of
      [register_center], whose documents carry integers of the client's
      choosing, speak of requests that were answered;
    - Python [float] is IEEE-754 binary64, taken from [SpecFloat];
    - a cursor ([find]) is read whole in one step;
    - a [Dict] field holds any JSON value ([Json]); an equality filter on
      a field also matches an array that contains the value. *)

From Stdlib Require Import ZArith Floats.SpecFloat Strings.HexString.
From stdpp Require Import base option list gmap strings.

(** ** Python arithmetic on [int] and [float] *)

Module PyFloat.
Local Open Scope Z_scope.

Definition prec : Z := 53.
Definition emax : Z := 1024.
Abbreviation float := spec_float.

Inductive py_result (A : Type) : Type :=
| PyOk (a : A)
| PyZeroDivisionError
| PyOverflowError.
Arguments PyOk {A} a.
Arguments PyZeroDivisionError {A}.
Arguments PyOverflowError {A}.

(** The binary64 number nearest to [n / d] (ties to even), with sign [s]. *)
Definition nearest_ratio (s : bool) (n d : positive) : float :=
  let '(mz, ez, lz) := SFdiv_core_binary prec emax (Zpos n) 0 (Zpos d) 0 in
  binary_round_aux prec emax s mz ez lz.

(** [a / b] on two [int]s (main.py:208): the correctly rounded quotient;
    [ZeroDivisionError] for [b = 0], [OverflowError] when the quotient
    is too large for a [float]; a zero result takes the sign of the
    operands. *)
Definition int_true_divide (a b : Z) : py_result float :=
  match b with
  | Z0 => PyZeroDivisionError
  | _ =>
      let s := xorb (a <? 0) (b <? 0) in
      match Z.abs a with
      | Zpos n =>
          match nearest_ratio s n (Z.to_pos (Z.abs b)) with
          | S754_infinity _ => PyOverflowError
          | q => PyOk q
          end
      | _ => PyOk (S754_zero s)
      end
  end.

(** An [int] used as a [float] operand, as [100] in [... * 100]
    (exact below 2^53); [float_of_int 100] is also the literal [100.0]. *)
Definition float_of_int (z : Z) : float := binary_normalize prec emax z 0 false.

Definition float_mul (x y : float) : float := SFmul prec emax x y.

(** [n / d] rounded to an integer, ties to even ([0 <= n], [0 < d]). *)
Definition div_half_even (n d : Z) : Z :=
  let q := n / d in
  match 2 * (n mod d) ?= d with
  | Lt => q
  | Gt => q + 1
  | Eq => if Z.even q then q else q + 1
  end.

(** [round(x, 2)] (main.py:212): the decimal with two places nearest to
    the exact value of [x] (ties to even), read back as a binary64
    number; zeros, infinities and NaN round to themselves. *)
Definition round2 (x : float) : float :=
  match x with
  | S754_finite s m e =>
      let hundredths :=
        match e with
        | Zneg p => div_half_even (100 * Zpos m) (Zpos (Pos.iter xO xH p))
        | _ => 100 * Zpos m * 2 ^ e
        end in
      match hundredths with
      | Zpos n => nearest_ratio s n 100
      | _ => S754_zero s
      end
  | _ => x
  end.
End PyFloat.
Import PyFloat.

(** ** Documents *)

(** [bson.ObjectId]: minted by the driver at insertion; the model numbers
    them in the order of insertion. *)
Record ObjectId := { oid_seq : nat }.

Definition ObjectId_str (o : ObjectId) : string :=
  let h := match N.of_nat (oid_seq o) with
           | N0 => EmptyString
           | Npos p => HexString.Raw.of_pos p EmptyString
           end in
  String.append
    (String.concat EmptyString (replicate (24 - String.length h) "0"%string)) h.

Inductive IdValue :=
| IdObject (o : ObjectId)
| IdStr (s : string).

(** [str(document["_id"])] *)
Definition str (v : IdValue) : string :=
  match v with
  | IdObject o => ObjectId_str o
  | IdStr s => s
  end.

(** A stored or fetched document: the fields of the inserted dict plus
    the ["_id"] key. *)
Record Document (A : Type) := { _id : IdValue; fields : A }.
Arguments _id {A} d.
Arguments fields {A} d.

(** A value of a request body that the models leave untyped: any JSON
    value.  A nested object is kept as the list of its members. *)
#[warnings="-register-all"] Inductive Json :=
| JNull
| JBool (b : bool)
| JInt (z : Z)
| JFloat (f : float)
| JStr (s : string)
| JList (l : list Json)
| JObject (members : list (string * Json)).

Abbreviation Dict := (gmap string Json).

(** *** main.py, section 4.A

    A record is a validated model instance, as the handler receives it:
    the class defaults are already filled in ([parse] below shows them
    for the two models of the scoring core). *)

Module Booking.
Record t := {
  booking_id : string;
  vehicle_id : string;
  issue : string;
  part_required : option string;
  date : string;
  status : string;
  replaced_part_sku : option string;
  failure_type : option string;
  source_batch_id : option string }.
End Booking.

Module ServiceCenter.
Record t := {
  centerId : string;
  name : string;
  location : string;
  phone : string;
  capacity : Z;
  specializations : list string;
  bookings : list Booking.t;
  is_active : bool }.
End ServiceCenter.

(** *** main.py, section 4.B *)

Module Vendor.
Record t := {
  vendor_id : string;
  name : string;
  category : string;
  contact : string;
  durability_score : float }.

(** The request body as the client sent it: [durability_score] may be
    left out, the class default then applies. *)
Definition parse (vendor_id name category contact : string)
    (durability_score : option float) : t :=
  {| vendor_id := vendor_id; name := name; category := category;
     contact := contact;
     durability_score := default (float_of_int 100) durability_score |}.
End Vendor.

Module BatchPart.
Record t := {
  part_sku : string;
  part_name : string;
  quantity : Z;
  failures_logged : Z }.

Definition parse (part_sku part_name : string) (quantity : Z)
    (failures_logged : option Z) : t :=
  {| part_sku := part_sku; part_name := part_name; quantity := quantity;
     failures_logged := default 0%Z failures_logged |}.
End BatchPart.

Module BatchAllocation.
Record t := {
  batch_allocation_id : string;
  company_name : string;
  vendor_details : Dict;
  batch_info : Dict;
  parts_manifest : list BatchPart.t }.
End BatchAllocation.

(** *** admin_main.py, section 4: the same models without the RCA fields *)

Module AdminMain.
Module Booking.
Record t := {
  booking_id : string;
  vehicle_id : string;
  issue : string;
  part_required : option string;
  date : string;
  status : string }.
End Booking.

Module ServiceCenter.
Record t := {
  centerId : string;
  name : string;
  location : string;
  phone : string;
  capacity : Z;
  specializations : list string;
  bookings : list Booking.t;
  is_active : bool }.
End ServiceCenter.
End AdminMain.

(** Both applications insert into [db.service_centers]; a document there
    has one of the two shapes. *)
Definition CenterFields : Type := ServiceCenter.t + AdminMain.ServiceCenter.t.

Definition center_centerId (c : CenterFields) : string :=
  match c with
  | inl c => ServiceCenter.centerId c
  | inr c => AdminMain.ServiceCenter.centerId c
  end.

Definition center_name (c : CenterFields) : string :=
  match c with
  | inl c => ServiceCenter.name c
  | inr c => AdminMain.ServiceCenter.name c
  end.

(** ** Requests, responses and handlers *)

Inductive Exception :=
| HTTPException (status_code : Z) (detail : string)
| ZeroDivisionError
| OverflowError.

Record VendorAnalytics := {
  vendor_name : string;
  calculated_durability_score : float;
  total_parts_supplied : Z;
  total_failures_detected : Z;
  batches_analyzed : nat }.

Inductive Response :=
| message_response (message : string)
| message_id_response (message id : string)
| centers_response (centers : list (Document CenterFields))
| center_response (center : Document CenterFields)
| analytics_response (analytics : VendorAnalytics).

(** The two filters used on [admin_collection]. *)
Inductive CenterFilter :=
| by_centerId (center_id : string)
| by_name_regex (pattern : string).

(** An [async def] body: what it returns or raises, or the Motor call it
    awaits next together with what it does with the answer. *)
Inductive coroutine (A : Type) : Type :=
| Return (a : A)
| Raise (e : Exception)
| admin_find_one (q : CenterFilter)
    (k : option (Document CenterFields) → coroutine A)
| admin_find (k : list (Document CenterFields) → coroutine A)
| admin_insert_one (c : CenterFields) (k : ObjectId → coroutine A)
| vendor_find_one (vendor_id : string)
    (k : option (Document Vendor.t) → coroutine A)
| vendor_insert_one (v : Vendor.t) (k : ObjectId → coroutine A)
| batch_find_one (batch_allocation_id : string)
    (k : option (Document BatchAllocation.t) → coroutine A)
| batch_insert_one (b : BatchAllocation.t) (k : ObjectId → coroutine A)
| batch_update_one_inc (batch_allocation_id part_sku : string)
    (k : nat → coroutine A)
| batch_find (vendor_id : string)
    (k : list (Document BatchAllocation.t) → coroutine A).
Arguments Return {A} a.
Arguments Raise {A} e.
Arguments admin_find_one {A} q k.
Arguments admin_find {A} k.
Arguments admin_insert_one {A} c k.
Arguments vendor_find_one {A} vendor_id k.
Arguments vendor_insert_one {A} v k.
Arguments batch_find_one {A} batch_allocation_id k.
Arguments batch_insert_one {A} b k.
Arguments batch_update_one_inc {A} batch_allocation_id part_sku k.
Arguments batch_find {A} vendor_id k.

(** [fix_id]: the guard [if document] is true of every fetched document
    (it has at least the ["_id"] key); the callers never pass [None]. *)
Definition fix_id {A} (document : Document A) : Document A :=
  {| _id := IdStr (str (_id document)); fields := fields document |}.

Definition home : coroutine Response :=
  Return (message_response "Admin API with Vendor Tracing is Online").

Definition register_center (center : ServiceCenter.t) : coroutine Response :=
  admin_find_one (by_centerId (ServiceCenter.centerId center)) (λ existing,
    match existing with
    | Some _ => Raise (HTTPException 400 "Center ID already exists")
    | None =>
        admin_insert_one (inl center) (λ inserted_id,
          Return (message_id_response "Registered Successfully"
                    (ObjectId_str inserted_id)))
    end).

Definition get_all_centers : coroutine Response :=
  admin_find (λ cursor,
    Return (centers_response
              (foldl (λ centers doc, centers ++ [fix_id doc]) [] cursor))).

Definition get_center_details (center_id : string) : coroutine Response :=
  admin_find_one (by_centerId center_id) (λ center,
    match center with
    | Some center => Return (center_response (fix_id center))
    | None => Raise (HTTPException 404 "Center Not Found")
    end).

Definition get_center_by_name (name : string) : coroutine Response :=
  admin_find_one
    (by_name_regex (String.append "^" (String.append name "$"))) (λ center,
    match center with
    | Some center => Return (center_response (fix_id center))
    | None =>
        Raise (HTTPException 404 "Service Center with this name not found")
    end).

Definition register_vendor (vendor : Vendor.t) : coroutine Response :=
  vendor_find_one (Vendor.vendor_id vendor) (λ existing,
    match existing with
    | Some _ => Raise (HTTPException 400 "Vendor ID already exists")
    | None =>
        vendor_insert_one vendor (λ inserted_id,
          Return (message_id_response "Vendor Registered"
                    (ObjectId_str inserted_id)))
    end).

Definition add_batch (batch : BatchAllocation.t) : coroutine Response :=
  batch_find_one (BatchAllocation.batch_allocation_id batch) (λ existing,
    match existing with
    | Some _ => Raise (HTTPException 400 "Batch ID already exists")
    | None =>
        batch_insert_one batch (λ inserted_id,
          Return (message_id_response "Batch Logged Successfully"
                    (ObjectId_str inserted_id)))
    end).

Definition report_failure (batch_id part_sku : string) : coroutine Response :=
  batch_find_one batch_id (λ batch,
    match batch with
    | None => Raise (HTTPException 404 "Batch not found")
    | Some _ =>
        batch_update_one_inc batch_id part_sku (λ modified_count,
          if decide (modified_count = 0)
          then Raise (HTTPException 400 "Part SKU not found in this batch")
          else Return (message_response
                 "Failure Logged. Vendor Durability Score Impacted."))
    end).

(** The accumulators of the loop of [get_vendor_analytics]. *)
Record totals := {
  batches : list (Document BatchAllocation.t);
  total_parts_supplied_acc : Z;
  total_failures_acc : Z }.

Definition analytics_loop (cursor : list (Document BatchAllocation.t)) : totals :=
  foldl (λ acc batch,
    foldl (λ acc part,
      {| batches := batches acc;
         total_parts_supplied_acc :=
           (total_parts_supplied_acc acc + BatchPart.quantity part)%Z;
         total_failures_acc :=
           (total_failures_acc acc + BatchPart.failures_logged part)%Z |})
      {| batches := batches acc ++ [fix_id batch];
         total_parts_supplied_acc := total_parts_supplied_acc acc;
         total_failures_acc := total_failures_acc acc |}
      (BatchAllocation.parts_manifest (fields batch)))
    {| batches := []; total_parts_supplied_acc := 0; total_failures_acc := 0 |}
    cursor.

(** Step 3 of [get_vendor_analytics]: [score] before rounding. *)
Definition durability_score_of (total_parts_supplied total_failures : Z)
    : py_result float :=
  if (0 <? total_parts_supplied)%Z
  then match int_true_divide (total_parts_supplied - total_failures)
               total_parts_supplied with
       | PyOk q => PyOk (float_mul q (float_of_int 100))
       | PyZeroDivisionError => PyZeroDivisionError
       | PyOverflowError => PyOverflowError
       end
  else PyOk (float_of_int 100).

Definition get_vendor_analytics (vendor_id : string) : coroutine Response :=
  vendor_find_one vendor_id (λ vendor,
    match vendor with
    | None => Raise (HTTPException 404 "Vendor not found")
    | Some vendor =>
        batch_find vendor_id (λ cursor,
          let acc := analytics_loop cursor in
          match durability_score_of (total_parts_supplied_acc acc)
                  (total_failures_acc acc) with
          | PyOk score =>
              Return (analytics_response
                {| vendor_name := Vendor.name (fields vendor);
                   calculated_durability_score := round2 score;
                   total_parts_supplied := total_parts_supplied_acc acc;
                   total_failures_detected := total_failures_acc acc;
                   batches_analyzed := length (batches acc) |})
          | PyZeroDivisionError => Raise ZeroDivisionError
          | PyOverflowError => Raise OverflowError
          end)
    end).

(** *** admin_main.py, section 5 *)

Module AdminMainApp.
(** [fix_id] has no guard here. *)
Definition fix_id {A} (document : Document A) : Document A :=
  {| _id := IdStr (str (_id document)); fields := fields document |}.

Definition home : coroutine Response :=
  Return (message_response "Admin API is Online").

Definition register_center (center : AdminMain.ServiceCenter.t)
    : coroutine Response :=
  admin_find_one (by_centerId (AdminMain.ServiceCenter.centerId center))
    (λ existing,
      match existing with
      | Some _ => Raise (HTTPException 400 "Center ID already exists")
      | None =>
          admin_insert_one (inr center) (λ inserted_id,
            Return (message_id_response "Registered Successfully"
                      (ObjectId_str inserted_id)))
      end).

Definition get_all_centers : coroutine Response :=
  admin_find (λ cursor,
    Return (centers_response
              (foldl (λ centers doc, centers ++ [fix_id doc]) [] cursor))).

Definition get_center_details (center_id : string) : coroutine Response :=
  admin_find_one (by_centerId center_id) (λ center,
    match center with
    | Some center => Return (center_response (fix_id center))
    | None => Raise (HTTPException 404 "Center Not Found")
    end).
End AdminMainApp.

(** Every route of the two applications. *)
Inductive Request :=
| GET_home
| POST_register_center (center : ServiceCenter.t)
| GET_get_all_centers
| GET_get_center_details (center_id : string)
| GET_get_center_by_name (name : string)
| POST_register_vendor (vendor : Vendor.t)
| POST_add_batch (batch : BatchAllocation.t)
| POST_report_failure (batch_id part_sku : string)
| GET_vendor_analytics (vendor_id : string)
| AdminMain_GET_home
| AdminMain_POST_register_center (center : AdminMain.ServiceCenter.t)
| AdminMain_GET_get_all_centers
| AdminMain_GET_get_center_details (center_id : string).

Definition handler (r : Request) : coroutine Response :=
  match r with
  | GET_home => home
  | POST_register_center center => register_center center
  | GET_get_all_centers => get_all_centers
  | GET_get_center_details center_id => get_center_details center_id
  | GET_get_center_by_name name => get_center_by_name name
  | POST_register_vendor vendor => register_vendor vendor
  | POST_add_batch batch => add_batch batch
  | POST_report_failure batch_id part_sku => report_failure batch_id part_sku
  | GET_vendor_analytics vendor_id => get_vendor_analytics vendor_id
  | AdminMain_GET_home => AdminMainApp.home
  | AdminMain_POST_register_center center => AdminMainApp.register_center center
  | AdminMain_GET_get_all_centers => AdminMainApp.get_all_centers
  | AdminMain_GET_get_center_details center_id =>
      AdminMainApp.get_center_details center_id
  end.

(** ** The database *)

Record Database := {
  admin_collection : list (Document CenterFields);
  vendor_collection : list (Document Vendor.t);
  batch_collection : list (Document BatchAllocation.t);
  next_oid : nat }.

Definition empty_db : Database :=
  {| admin_collection := []; vendor_collection := []; batch_collection := [];
     next_oid := 0 |}.

#[global] Instance float_eq_dec : EqDecision float.
Proof. solve_decision. Defined.

(** [{"vendor_id": vendor_id}] *)
Definition has_vendor_id (vendor_id : string) (d : Document Vendor.t) : Prop :=
  Vendor.vendor_id (fields d) = vendor_id.

(** [{"batch_allocation_id": batch_id}] *)
Definition has_batch_id (batch_id : string) (d : Document BatchAllocation.t)
    : Prop :=
  BatchAllocation.batch_allocation_id (fields d) = batch_id.

Definition has_sku (part_sku : string) (p : BatchPart.t) : Prop :=
  BatchPart.part_sku p = part_sku.

(** [{"batch_allocation_id": batch_id, "parts_manifest.part_sku": part_sku}] *)
Definition has_batch_id_and_sku (batch_id part_sku : string)
    (d : Document BatchAllocation.t) : Prop :=
  has_batch_id batch_id d ∧
  Exists (has_sku part_sku) (BatchAllocation.parts_manifest (fields d)).

(** The value is the string [s]. *)
Definition is_str (s : string) (v : Json) : Prop :=
  match v with
  | JStr s' => s' = s
  | _ => False
  end.

(** [{"vendor_id": vendor_id}] on the embedded document [vendor_details]:
    an equality filter matches a field that holds the value, and a field
    that holds an array with the value among its elements. *)
Definition names_vendor (vendor_id : string) (vendor_details : Dict) : Prop :=
  match vendor_details !! "vendor_id" with
  | Some (JList l) => Exists (is_str vendor_id) l
  | Some v => is_str vendor_id v
  | None => False
  end.

(** [{"vendor_details.vendor_id": vendor_id}] *)
Definition supplied_by (vendor_id : string) (d : Document BatchAllocation.t)
    : Prop :=
  names_vendor vendor_id (BatchAllocation.vendor_details (fields d)).

#[global] Instance has_vendor_id_dec v d : Decision (has_vendor_id v d).
Proof. unfold has_vendor_id. apply _. Defined.
#[global] Instance has_batch_id_dec b d : Decision (has_batch_id b d).
Proof. unfold has_batch_id. apply _. Defined.
#[global] Instance has_sku_dec s p : Decision (has_sku s p).
Proof. unfold has_sku. apply _. Defined.
#[global] Instance has_batch_id_and_sku_dec b s d :
  Decision (has_batch_id_and_sku b s d).
Proof. unfold has_batch_id_and_sku. apply _. Defined.
#[global] Instance is_str_dec s v : Decision (is_str s v).
Proof. destruct v; simpl; apply _. Defined.
#[global] Instance names_vendor_dec v m : Decision (names_vendor v m).
Proof.
  unfold names_vendor. destruct (m !! "vendor_id") as [[]|]; apply _.
Defined.
#[global] Instance supplied_by_dec v d : Decision (supplied_by v d).
Proof. unfold supplied_by. apply _. Defined.

(** [collection.find_one(filter)] *)
Definition find_one {A} (P : A → Prop) `{!∀ x, Decision (P x)}
    (collection : list A) : option A :=
  snd <$> list_find P collection.

(** [{"$inc": {"parts_manifest.$.failures_logged": 1}}] on one array element *)
Definition inc_failures_logged (p : BatchPart.t) : BatchPart.t :=
  {| BatchPart.part_sku := BatchPart.part_sku p;
     BatchPart.part_name := BatchPart.part_name p;
     BatchPart.quantity := BatchPart.quantity p;
     BatchPart.failures_logged := (BatchPart.failures_logged p + 1)%Z |}.

Definition with_parts_manifest (manifest : list BatchPart.t)
    (d : Document BatchAllocation.t) : Document BatchAllocation.t :=
  {| _id := _id d;
     fields :=
       {| BatchAllocation.batch_allocation_id :=
            BatchAllocation.batch_allocation_id (fields d);
          BatchAllocation.company_name := BatchAllocation.company_name (fields d);
          BatchAllocation.vendor_details :=
            BatchAllocation.vendor_details (fields d);
          BatchAllocation.batch_info := BatchAllocation.batch_info (fields d);
          BatchAllocation.parts_manifest := manifest |} |}.

(** [update_one(filter, {"$inc": ...})]: the first document that matches
    the filter, and in it the first array element that matches; the
    result is [modified_count] and the collection afterwards. *)
Definition update_one_inc (batch_id part_sku : string)
    (collection : list (Document BatchAllocation.t))
    : nat * list (Document BatchAllocation.t) :=
  match list_find (has_batch_id_and_sku batch_id part_sku) collection with
  | None => (0, collection)
  | Some (i, d) =>
      let manifest := BatchAllocation.parts_manifest (fields d) in
      match list_find (has_sku part_sku) manifest with
      | None => (0, collection)
      | Some (j, p) =>
          (1, <[i := with_parts_manifest
                       (<[j := inc_failures_logged p]> manifest) d]> collection)
      end
  end.

(** [insert_one(document)] on each collection: the driver mints the
    ["_id"], the document goes to the end of the collection.  (A
    document that the driver cannot encode, one with an [int] outside
    64 bits, is refused with an exception and not stored; that path is
    not in these functions.) *)
Definition admin_insert (c : CenterFields) (db : Database) : ObjectId * Database :=
  let oid := {| oid_seq := next_oid db |} in
  (oid,
   {| admin_collection :=
        admin_collection db ++ [{| _id := IdObject oid; fields := c |}];
      vendor_collection := vendor_collection db;
      batch_collection := batch_collection db;
      next_oid := S (next_oid db) |}).

Definition vendor_insert (v : Vendor.t) (db : Database) : ObjectId * Database :=
  let oid := {| oid_seq := next_oid db |} in
  (oid,
   {| admin_collection := admin_collection db;
      vendor_collection :=
        vendor_collection db ++ [{| _id := IdObject oid; fields := v |}];
      batch_collection := batch_collection db;
      next_oid := S (next_oid db) |}).

Definition batch_insert (b : BatchAllocation.t) (db : Database)
    : ObjectId * Database :=
  let oid := {| oid_seq := next_oid db |} in
  (oid,
   {| admin_collection := admin_collection db;
      vendor_collection := vendor_collection db;
      batch_collection :=
        batch_collection db ++ [{| _id := IdObject oid; fields := b |}];
      next_oid := S (next_oid db) |}).

Definition batch_update_inc (batch_id part_sku : string) (db : Database)
    : nat * Database :=
  let r := update_one_inc batch_id part_sku (batch_collection db) in
  (r.1,
   {| admin_collection := admin_collection db;
      vendor_collection := vendor_collection db;
      batch_collection := r.2;
      next_oid := next_oid db |}).

(** Whether a coroutine has finished, and how. *)
Definition finished {A} (c : coroutine A) : Prop :=
  match c with
  | Return _ | Raise _ => True
  | _ => False
  end.

Definition succeeded {A} (c : coroutine A) : Prop :=
  match c with
  | Return _ => True
  | _ => False
  end.

#[global] Instance finished_dec {A} (c : coroutine A) : Decision (finished c).
Proof. destruct c; simpl; apply _. Defined.
#[global] Instance succeeded_dec {A} (c : coroutine A) : Decision (succeeded c).
Proof. destruct c; simpl; apply _. Defined.

(** The responses of [report_failure]. *)
Definition not_found : Exception := HTTPException 404 "Batch not found".
Definition part_not_in_manifest : Exception :=
  HTTPException 400 "Part SKU not found in this batch".
Definition failure_logged : Response :=
  message_response "Failure Logged. Vendor Durability Score Impacted.".

(** A stand-in for the regular-expression engine in closed examples: a
    pattern [^name$] without metacharacters, matched case-sensitively. *)
Definition literal_search (pattern subject : string) : bool :=
  bool_decide (pattern = String.append "^" (String.append subject "$")).

(** ** Concurrent failure reports: what is counted and what each
    coroutine still may do *)

(** The request is [report_failure(batch_id, part_sku)]. *)
Definition reports_against (batch_id part_sku : string) (r : Request) : Prop :=
  match r with
  | POST_report_failure b s => b = batch_id ∧ s = part_sku
  | _ => False
  end.

#[global] Instance reports_against_dec b s r : Decision (reports_against b s r).
Proof. destruct r; simpl; apply _. Defined.

(** How many of the requests are calls of [report_failure(batch_id,
    part_sku)] that have returned their success message. *)
Definition successes_against (batch_id part_sku : string)
    (requests : list Request) (pool : list (coroutine Response)) : nat :=
  length (filter (λ rc, reports_against batch_id part_sku rc.1 ∧ succeeded rc.2)
            (zip requests pool)).

(** A coroutine about to issue the [$inc] for [(batch_id, part_sku)],
    after which it finishes at once, with success exactly when a
    document was modified. *)
Definition own_update_pending {A} (batch_id part_sku : string) (c : coroutine A)
    : Prop :=
  ∃ k, c = batch_update_one_inc batch_id part_sku k ∧
       ∀ n, finished (k n) ∧ (succeeded (k n) ↔ n ≠ 0).

(** A coroutine none of whose [update_one] yet to come is the [$inc] for
    [(batch_id, part_sku)]. *)
Fixpoint updates_elsewhere {A} (batch_id part_sku : string) (c : coroutine A)
    : Prop :=
  match c with
  | Return _ | Raise _ => True
  | batch_update_one_inc b s k =>
      ¬ (b = batch_id ∧ s = part_sku) ∧
      ∀ n, updates_elsewhere batch_id part_sku (k n)
  | admin_find_one _ k => ∀ x, updates_elsewhere batch_id part_sku (k x)
  | admin_find k => ∀ x, updates_elsewhere batch_id part_sku (k x)
  | admin_insert_one _ k => ∀ x, updates_elsewhere batch_id part_sku (k x)
  | vendor_find_one _ k => ∀ x, updates_elsewhere batch_id part_sku (k x)
  | vendor_insert_one _ k => ∀ x, updates_elsewhere batch_id part_sku (k x)
  | batch_find_one _ k => ∀ x, updates_elsewhere batch_id part_sku (k x)
  | batch_insert_one _ k => ∀ x, updates_elsewhere batch_id part_sku (k x)
  | batch_find _ k => ∀ x, updates_elsewhere batch_id part_sku (k x)
  end.

Definition thread_ok (batch_id part_sku : string) (r : Request)
    (c : coroutine Response) : Prop :=
  if decide (reports_against batch_id part_sku r)
  then c = report_failure batch_id part_sku ∨
       own_update_pending batch_id part_sku c ∨
       succeeded c
  else updates_elsewhere batch_id part_sku c.

(** The entry that [update_one] addresses for [(batch_id, part_sku)]:
    entry [j] of document [i]. *)
Definition addressed_entry (batch_id part_sku : string)
    (collection : list (Document BatchAllocation.t)) (i j : nat)
    (p : BatchPart.t) : Prop :=
  ∃ d,
    list_find (has_batch_id_and_sku batch_id part_sku) collection = Some (i, d) ∧
    list_find (has_sku part_sku) (BatchAllocation.parts_manifest (fields d))
      = Some (j, p).

(** ** The totals of a vendor

    [manifest_entries_of]: every manifest entry of every batch that the
    filter of [get_vendor_analytics] selects. *)
Definition manifest_entries_of (vendor_id : string) (db : Database)
    : list BatchPart.t :=
  filter (supplied_by vendor_id) (batch_collection db)
    ≫= (λ d, BatchAllocation.parts_manifest (fields d)).

Definition totalSupplied (vendor_id : string) (db : Database) : Z :=
  foldr Z.add 0%Z (BatchPart.quantity <$> manifest_entries_of vendor_id db).

Definition totalFailures (vendor_id : string) (db : Database) : Z :=
  foldr Z.add 0%Z (BatchPart.failures_logged <$> manifest_entries_of vendor_id db).

(** An [int] that BSON stores: 64 bits, signed. *)
Definition int64 (z : Z) : Prop := (- 2 ^ 63 ≤ z < 2 ^ 63)%Z.

(** ** The scoring rule in the words of the specification (4.4)

    "every batch whose [vendor_details.vendor_id] equals the given
    vendor id" *)
Definition vendor_id_equals (vendor_id : string)
    (d : Document BatchAllocation.t) : Prop :=
  match BatchAllocation.vendor_details (fields d) !! "vendor_id" with
  | Some v => is_str vendor_id v
  | None => False
  end.

#[global] Instance vendor_id_equals_dec v d : Decision (vendor_id_equals v d).
Proof.
  unfold vendor_id_equals.
  destruct (BatchAllocation.vendor_details (fields d) !! "vendor_id");
    apply _.
Defined.

Definition stated_manifest_entries_of (vendor_id : string) (db : Database)
    : list BatchPart.t :=
  filter (vendor_id_equals vendor_id) (batch_collection db)
    ≫= (λ d, BatchAllocation.parts_manifest (fields d)).

Definition stated_totalSupplied (vendor_id : string) (db : Database) : Z :=
  foldr Z.add 0%Z
    (BatchPart.quantity <$> stated_manifest_entries_of vendor_id db).

Definition stated_totalFailures (vendor_id : string) (db : Database) : Z :=
  foldr Z.add 0%Z
    (BatchPart.failures_logged <$> stated_manifest_entries_of vendor_id db).

(** "[score = 100.0] if [totalSupplied == 0]; otherwise [score =
    ((totalSupplied - totalFailures) / totalSupplied) * 100], rounded to
    2 decimal places", the expression evaluated as Python does. *)
Definition stated_score (totalSupplied totalFailures : Z) : py_result float :=
  if (totalSupplied =? 0)%Z then PyOk (round2 (float_of_int 100))
  else match int_true_divide (totalSupplied - totalFailures) totalSupplied with
       | PyOk q => PyOk (round2 (float_mul q (float_of_int 100)))
       | PyZeroDivisionError => PyZeroDivisionError
       | PyOverflowError => PyOverflowError
       end.

(** The first sentence of the scoring rule, read as a property of a
    response to [get_vendor_analytics]. *)
Definition score_as_stated (vendor_id : string) (db : Database)
    (response : Exception + Response) : Prop :=
  ∃ a, response = inr (analytics_response a) ∧
       total_parts_supplied a = stated_totalSupplied vendor_id db ∧
       total_failures_detected a = stated_totalFailures vendor_id db ∧
       PyOk (calculated_durability_score a)
       = stated_score (stated_totalSupplied vendor_id db)
           (stated_totalFailures vendor_id db).

(** *** Closed examples *)

Definition denso : Vendor.t :=
  Vendor.parse "V-DENSO-09" "Denso Corporation" "Electronics" "denso@example.com"
    None.

Definition spark_plugs (quantity : Z) : BatchAllocation.t :=
  {| BatchAllocation.batch_allocation_id := "TOYOTA_202403A001";
     BatchAllocation.company_name := "Toyota";
     BatchAllocation.vendor_details := {[ "vendor_id" := JStr "V-DENSO-09" ]};
     BatchAllocation.batch_info := ∅;
     BatchAllocation.parts_manifest :=
       [BatchPart.parse "90919-01191" "Spark Plug" quantity None] |}.

Definition denso_doc : Document Vendor.t :=
  {| _id := IdObject {| oid_seq := 0 |}; fields := denso |}.

Definition toyota_doc (manifest : list BatchPart.t) : Document BatchAllocation.t :=
  {| _id := IdObject {| oid_seq := 1 |};
     fields :=
       {| BatchAllocation.batch_allocation_id := "TOYOTA_202403A001";
          BatchAllocation.company_name := "Toyota";
          BatchAllocation.vendor_details :=
            {[ "vendor_id" := JStr "V-DENSO-09" ]};
          BatchAllocation.batch_info := ∅;
          BatchAllocation.parts_manifest := manifest |} |}.

Definition toyota_db (manifest : list BatchPart.t) : Database :=
  {| admin_collection := [];
     vendor_collection := [denso_doc];
     batch_collection := [toyota_doc manifest];
     next_oid := 2 |}.

(** A batch logged with a list of vendor ids. *)
Definition shared_batch_doc : Document BatchAllocation.t :=
  {| _id := IdObject {| oid_seq := 1 |};
     fields :=
       {| BatchAllocation.batch_allocation_id := "TOYOTA_202403A002";
          BatchAllocation.company_name := "Toyota";
          BatchAllocation.vendor_details :=
            {[ "vendor_id" := JList [JStr "V-BOSCH-02"; JStr "V-DENSO-09"] ]};
          BatchAllocation.batch_info := ∅;
          BatchAllocation.parts_manifest :=
            [{| BatchPart.part_sku := "90919-01191";
                BatchPart.part_name := "Spark Plug";
                BatchPart.quantity := 100;
                BatchPart.failures_logged := 1 |}] |} |}.

Definition shared_batch_db : Database :=
  {| admin_collection := [];
     vendor_collection := [denso_doc];
     batch_collection := [shared_batch_doc];
     next_oid := 2 |}.

(** A ledger whose only batch was logged with a negative quantity and
    has one failure reported against it. *)
Definition returned_goods : list BatchPart.t :=
  [{| BatchPart.part_sku := "90919-01191"; BatchPart.part_name := "Spark Plug";
      BatchPart.quantity := -5; BatchPart.failures_logged := 1 |}].

(** A manifest that lists one SKU twice. *)
Definition spark_plug : BatchPart.t :=
  {| BatchPart.part_sku := "90919-01191"; BatchPart.part_name := "Spark Plug";
     BatchPart.quantity := 100; BatchPart.failures_logged := 1 |}.
Definition oil_filter : BatchPart.t :=
  {| BatchPart.part_sku := "04152-YZZA1"; BatchPart.part_name := "Oil Filter";
     BatchPart.quantity := 40; BatchPart.failures_logged := 0 |}.
Definition spark_plug_again : BatchPart.t :=
  {| BatchPart.part_sku := "90919-01191"; BatchPart.part_name := "Spark Plug";
     BatchPart.quantity := 60; BatchPart.failures_logged := 2 |}.
Definition two_listings : list BatchPart.t :=
  [oil_filter; spark_plug; spark_plug_again].

Section Store.

(** The regular-expression engine of the server, with option ["i"]:
    [regex_search pattern subject]. *)
Variable regex_search : string → string → bool.

Definition center_matches (q : CenterFilter) (d : Document CenterFields) : Prop :=
  match q with
  | by_centerId center_id => center_centerId (fields d) = center_id
  | by_name_regex pattern =>
      regex_search pattern (center_name (fields d)) = true
  end.

#[local] Instance center_matches_dec q d : Decision (center_matches q d).
Proof. destruct q; simpl; apply _. Defined.

(** One [await]: the pending database call runs atomically and the
    coroutine resumes with its answer.  [None] when nothing is pending. *)
Definition await_step {A} (c : coroutine A) (db : Database)
    : option (coroutine A * Database) :=
  match c with
  | Return _ | Raise _ => None
  | admin_find_one q k =>
      Some (k (find_one (center_matches q) (admin_collection db)), db)
  | admin_find k => Some (k (admin_collection db), db)
  | admin_insert_one c k => Some (prod_map k id (admin_insert c db))
  | vendor_find_one vendor_id k =>
      Some (k (find_one (has_vendor_id vendor_id) (vendor_collection db)), db)
  | vendor_insert_one v k => Some (prod_map k id (vendor_insert v db))
  | batch_find_one batch_id k =>
      Some (k (find_one (has_batch_id batch_id) (batch_collection db)), db)
  | batch_insert_one b k => Some (prod_map k id (batch_insert b db))
  | batch_update_one_inc batch_id part_sku k =>
      Some (prod_map k id (batch_update_inc batch_id part_sku db))
  | batch_find vendor_id k =>
      Some (k (filter (supplied_by vendor_id) (batch_collection db)), db)
  end.

(** A request served alone, from its first [await] to its response. *)
Fixpoint run {A} (c : coroutine A) (db : Database) : (Exception + A) * Database :=
  match c with
  | Return a => (inr a, db)
  | Raise e => (inl e, db)
  | admin_find_one q k =>
      run (k (find_one (center_matches q) (admin_collection db))) db
  | admin_find k => run (k (admin_collection db)) db
  | admin_insert_one c k =>
      let r := admin_insert c db in run (k r.1) r.2
  | vendor_find_one vendor_id k =>
      run (k (find_one (has_vendor_id vendor_id) (vendor_collection db))) db
  | vendor_insert_one v k =>
      let r := vendor_insert v db in run (k r.1) r.2
  | batch_find_one batch_id k =>
      run (k (find_one (has_batch_id batch_id) (batch_collection db))) db
  | batch_insert_one b k =>
      let r := batch_insert b db in run (k r.1) r.2
  | batch_update_one_inc batch_id part_sku k =>
      let r := batch_update_inc batch_id part_sku db in run (k r.1) r.2
  | batch_find vendor_id k =>
      run (k (filter (supplied_by vendor_id) (batch_collection db))) db
  end.

(** The database after a sequence of requests served one after the other. *)
Definition serve (db : Database) (r : Request) : Database :=
  (run (handler r) db).2.

Inductive reachable : Database → Prop :=
| reachable_empty : reachable empty_db
| reachable_serve db r : reachable db → reachable (serve db r).

(** The responses to a sequence of requests served one after the other,
    and the database after the last. *)
Definition session (db : Database) (requests : list Request)
    : list (Exception + Response) * Database :=
  foldl (λ st r, let x := run (handler r) st.2 in (st.1 ++ [x.1], x.2))
        ([], db) requests.

(** *** Concurrent requests

    The pool holds the coroutines in flight; a schedule names, step by
    step, the coroutine that gets its pending database call executed. *)
Definition pool_step (i : nat) (st : list (coroutine Response) * Database)
    : list (coroutine Response) * Database :=
  match st.1 !! i with
  | Some c =>
      match await_step c st.2 with
      | Some (c', db') => (<[i := c']> st.1, db')
      | None => st
      end
  | None => st
  end.

Definition schedule (s : list nat) (st : list (coroutine Response) * Database)
    : list (coroutine Response) * Database :=
  foldl (λ st i, pool_step i st) st s.

(** ** Further definitions *)

(** [register_center] of the application whose model the center has. *)
Definition register_center_of (center : CenterFields) : coroutine Response :=
  match center with
  | inl center => register_center center
  | inr center => AdminMainApp.register_center center
  end.

(** The sign bit of a [float] ([None] for NaN). *)
Definition sign_bit (x : float) : option bool :=
  match x with
  | S754_zero s | S754_infinity s | S754_finite s _ _ => Some s
  | S754_nan => None
  end.

(** The same part with a counter at least as large; the same batch with
    such parts; the same ledger with such batches, then new ones. *)
Definition entry_grows (p p' : BatchPart.t) : Prop :=
  BatchPart.part_sku p' = BatchPart.part_sku p ∧
  BatchPart.part_name p' = BatchPart.part_name p ∧
  BatchPart.quantity p' = BatchPart.quantity p ∧
  (BatchPart.failures_logged p ≤ BatchPart.failures_logged p')%Z.

Definition batch_grows (d d' : Document BatchAllocation.t) : Prop :=
  _id d' = _id d ∧
  BatchAllocation.batch_allocation_id (fields d')
    = BatchAllocation.batch_allocation_id (fields d) ∧
  BatchAllocation.company_name (fields d')
    = BatchAllocation.company_name (fields d) ∧
  BatchAllocation.vendor_details (fields d')
    = BatchAllocation.vendor_details (fields d) ∧
  BatchAllocation.batch_info (fields d')
    = BatchAllocation.batch_info (fields d) ∧
  Forall2 entry_grows (BatchAllocation.parts_manifest (fields d))
    (BatchAllocation.parts_manifest (fields d')).

Definition ledger_grows (l l' : list (Document BatchAllocation.t)) : Prop :=
  ∃ kept new, l' = kept ++ new ∧ Forall2 batch_grows l kept.

(** A service center, in the model of each application. *)
Definition delhi_hub : ServiceCenter.t :=
  {| ServiceCenter.centerId := "SC-DEL-01";
     ServiceCenter.name := "Hero Hub Delhi";
     ServiceCenter.location := "Delhi";
     ServiceCenter.phone := "9988776655";
     ServiceCenter.capacity := 20;
     ServiceCenter.specializations := ["Engine"; "EV Battery"]%string;
     ServiceCenter.bookings := [];
     ServiceCenter.is_active := true |}.

Definition delhi_hub_admin : AdminMain.ServiceCenter.t :=
  {| AdminMain.ServiceCenter.centerId := "SC-DEL-01";
     AdminMain.ServiceCenter.name := "Hero Hub Delhi";
     AdminMain.ServiceCenter.location := "Delhi";
     AdminMain.ServiceCenter.phone := "9988776655";
     AdminMain.ServiceCenter.capacity := 20;
     AdminMain.ServiceCenter.specializations := [];
     AdminMain.ServiceCenter.bookings := [];
     AdminMain.ServiceCenter.is_active := true |}.

(** A manifest with more failures logged than parts supplied. *)
Definition overcharged : list BatchPart.t :=
  [{| BatchPart.part_sku := "90919-01191"; BatchPart.part_name := "Spark Plug";
      BatchPart.quantity := 10; BatchPart.failures_logged := 12 |}].

(** The routes declared with [@app.get]. *)
Definition is_get (r : Request) : Prop :=
  match r with
  | GET_home | GET_get_all_centers | GET_get_center_details _
  | GET_get_center_by_name _ | GET_vendor_analytics _
  | AdminMain_GET_home | AdminMain_GET_get_all_centers
  | AdminMain_GET_get_center_details _ => True
  | POST_register_center _ | POST_register_vendor _ | POST_add_batch _
  | POST_report_failure _ _ | AdminMain_POST_register_center _ => False
  end.

(** * Properties *)

(** ** Python floats: the quotient of two [int]s of ordinary size is in
    range *)

Section FloatRange.
Local Open Scope Z_scope.

Lemma digits2_pos_size p : digits2_pos p = Pos.size p.
Proof. induction p; simpl; congruence. Qed.

Lemma Zdigits2_log2 n : 0 < n → Zdigits2 n = Z.log2 n + 1.
Proof.
  destruct n as [|p|p]; try lia. intros _. simpl.
  destruct p; simpl; rewrite ?digits2_pos_size; lia.
Qed.

Lemma Zdigits2_nonneg n : 0 ≤ Zdigits2 n.
Proof. destruct n; simpl; lia. Qed.

Lemma Zdigits2_le a b : 0 ≤ a ≤ b → Zdigits2 a ≤ Zdigits2 b.
Proof.
  intros [Ha Hab]. destruct (Z.eq_dec a 0) as [->|]; [apply Zdigits2_nonneg|].
  rewrite !Zdigits2_log2 by lia. pose proof (Z.log2_le_mono a b Hab). lia.
Qed.

Lemma Zdigits2_lt_pow2 n k : 0 ≤ k → 0 ≤ n < 2 ^ k → Zdigits2 n ≤ k.
Proof.
  intros Hk [Hn Hlt]. destruct (Z.eq_dec n 0) as [->|]; [simpl; lia|].
  rewrite Zdigits2_log2 by lia.
  assert (Z.log2 n < k) by (apply Z.log2_lt_pow2; lia). lia.
Qed.

Lemma Zdigits2_shiftl n s : 0 < n → 0 ≤ s → Zdigits2 (Z.shiftl n s) = Zdigits2 n + s.
Proof.
  intros Hn Hs. rewrite Z.shiftl_mul_pow2 by done.
  assert (0 < 2 ^ s) by (apply Z.pow_pos_nonneg; lia).
  assert (0 < n * 2 ^ s) by (by apply Z.mul_pos_pos).
  rewrite (Zdigits2_log2 n), (Zdigits2_log2 (n * 2 ^ s)) by done.
  rewrite Z.log2_mul_pow2 by lia. lia.
Qed.

Lemma Zdigits2_succ m : 0 ≤ m → Zdigits2 (m + 1) ≤ Zdigits2 m + 1.
Proof.
  intros Hm. destruct (Z.eq_dec m 0) as [->|]; [simpl; lia|].
  rewrite !Zdigits2_log2 by lia.
  pose proof (Z.log2_succ_le m) as H. rewrite <- !Z.add_1_r in H. lia.
Qed.

Lemma shr_1_digits mrs :
  0 ≤ shr_m mrs →
  0 ≤ shr_m (shr_1 mrs) ∧
  Zdigits2 (shr_m (shr_1 mrs)) = Z.max 0 (Zdigits2 (shr_m mrs) - 1).
Proof.
  destruct mrs as [m r s]. simpl. intros Hm.
  destruct m as [|[p|p|]|p]; simpl; lia.
Qed.

Lemma iter_shr_1_digits p mrs :
  0 ≤ shr_m mrs →
  0 ≤ shr_m (SpecFloat.iter_pos shr_1 p mrs) ∧
  Zdigits2 (shr_m (SpecFloat.iter_pos shr_1 p mrs))
  = Z.max 0 (Zdigits2 (shr_m mrs) - Zpos p).
Proof.
  revert mrs. induction p as [p IH|p IH|]; intros mrs Hm; simpl.
  - destruct (shr_1_digits mrs Hm) as [H0 H1].
    destruct (IH _ H0) as [H2 H3]. destruct (IH _ H2) as [H4 H5].
    split; [done|]. rewrite H5, H3, H1. lia.
  - destruct (IH _ Hm) as [H2 H3]. destruct (IH _ H2) as [H4 H5].
    split; [done|]. rewrite H5, H3. lia.
  - apply shr_1_digits, Hm.
Qed.

(** After [shr_fexp], the exponent and the digits of the mantissa. *)
Lemma shr_fexp_bound m e l B :
  0 ≤ m → e ≤ B - prec → Zdigits2 m + e ≤ B → 0 ≤ B →
  let '(mrs, e') := shr_fexp prec emax m e l in
  0 ≤ shr_m mrs ∧ e' ≤ B - prec ∧ Zdigits2 (shr_m mrs) + e' ≤ B.
Proof.
  intros Hm He Hd Hmin. unfold shr_fexp, shr.
  assert (shr_m (shr_record_of_loc m l) = m) as Hrec
    by (by destruct l as [|[]]).
  destruct (fexp prec emax (Zdigits2 m + e) - e) as [|p|p] eqn:E;
    rewrite ?Hrec; try (split_and!; lia).
  destruct (iter_shr_1_digits p (shr_record_of_loc m l)) as [H0 H1];
    [by rewrite Hrec|].
  rewrite Hrec in H1. split; [done|]. rewrite H1.
  unfold fexp, emin, prec, emax in *. lia.
Qed.

Lemma round_nearest_even_digits m l :
  0 ≤ m →
  0 ≤ round_nearest_even m l ∧
  Zdigits2 (round_nearest_even m l) ≤ Zdigits2 m + 1.
Proof.
  intros Hm. pose proof (Zdigits2_succ m Hm).
  destruct l as [|[]]; simpl; try destruct (Z.even m); lia.
Qed.

(** A value below [2^1023] does not round to an infinity. *)
Lemma binary_round_aux_in_range sx mx ex lx :
  0 ≤ mx → ex ≤ 970 → Zdigits2 mx + ex ≤ 1023 →
  ∀ s, binary_round_aux prec emax sx mx ex lx ≠ S754_infinity s.
Proof.
  intros Hm He Hd s. unfold binary_round_aux.
  pose proof (shr_fexp_bound mx ex lx 1023 Hm He Hd) as H1.
  destruct (shr_fexp prec emax mx ex lx) as [mrs' e'].
  destruct H1 as (H1 & H2 & H3); [lia|].
  destruct (round_nearest_even_digits (shr_m mrs') (loc_of_shr_record mrs') H1)
    as [H4 H5].
  pose proof (shr_fexp_bound _ e' loc_Exact 1024 H4) as H6.
  destruct (shr_fexp prec emax _ e' loc_Exact) as [mrs'' e''].
  destruct H6 as (H6 & H7 & H8); [unfold prec in *; lia..|].
  destruct (shr_m mrs''); [done| |done].
  unfold prec, emax in *.
  destruct (Z.leb_spec e'' (1024 - 53)); [done | lia].
Qed.

Lemma nearest_ratio_in_range sx n d :
  Zpos n < 2 ^ 1023 → ∀ s, nearest_ratio sx n d ≠ S754_infinity s.
Proof.
  intros Hn. unfold nearest_ratio, SFdiv_core_binary.
  set (d1 := Zdigits2 (Zpos n)). set (d2 := Zdigits2 (Zpos d)).
  assert (d1 ≤ 1023) as Hd1 by (apply Zdigits2_lt_pow2; lia).
  set (e' := Z.min (fexp prec emax (d1 + 0 - (d2 + 0))) (0 - 0)).
  assert (e' ≤ 0) as He' by lia.
  set (m' := match 0 - 0 - e' with
             | Zpos _ => Z.shiftl (Zpos n) (0 - 0 - e')
             | 0 => Zpos n
             | Zneg _ => 0
             end).
  assert (0 < m' ∧ Zdigits2 m' + e' = d1) as [Hm' Hdm'].
  { unfold m'. destruct (0 - 0 - e') as [|p|p] eqn:E; [split; lia| |lia].
    rewrite <- E. split.
    - rewrite Z.shiftl_mul_pow2 by lia.
      apply Z.mul_pos_pos; [lia|]. apply Z.pow_pos_nonneg; lia.
    - rewrite Zdigits2_shiftl by lia. fold d1. lia. }
  pose proof (Z.div_eucl_eq m' (Zpos d) ltac:(lia)) as Hdiv.
  pose proof (Z.mod_pos_bound m' (Zpos d) ltac:(lia)) as Hmod.
  unfold Z.modulo in Hmod.
  destruct (Z.div_eucl m' (Zpos d)) as [q r]. simpl in Hmod.
  assert (0 ≤ q ≤ m') as Hq by nia.
  apply binary_round_aux_in_range; [lia | lia |].
  pose proof (Zdigits2_le q m' Hq). lia.
Qed.

Lemma int_true_divide_in_range a b :
  0 < b → Z.abs a < 2 ^ 1023 → ∃ q, int_true_divide a b = PyOk q.
Proof.
  intros Hb Ha. unfold int_true_divide.
  destruct b as [|pb|pb]; [lia| |lia].
  destruct (Z.abs a) as [|n|n] eqn:E; [eauto| |eauto].
  pose proof (nearest_ratio_in_range (xorb (a <? 0) (Zpos pb <? 0)) n
                (Z.to_pos (Z.abs (Zpos pb))) Ha) as Hfin.
  destruct (nearest_ratio _ _ _); eauto. by destruct (Hfin s).
Qed.

End FloatRange.

(** ** The failure recorder: [update_one] with [$inc] *)

Lemma update_one_inc_unmatched batch_id part_sku collection :
  list_find (has_batch_id_and_sku batch_id part_sku) collection = None →
  update_one_inc batch_id part_sku collection = (0, collection).
Proof. intros H. unfold update_one_inc. by rewrite H. Qed.

Lemma update_one_inc_matched batch_id part_sku collection i d :
  list_find (has_batch_id_and_sku batch_id part_sku) collection = Some (i, d) →
  ∃ j p,
    list_find (has_sku part_sku) (BatchAllocation.parts_manifest (fields d))
      = Some (j, p) ∧
    update_one_inc batch_id part_sku collection
      = (1, <[i := with_parts_manifest
                     (<[j := inc_failures_logged p]>
                        (BatchAllocation.parts_manifest (fields d))) d]>
              collection).
Proof.
  intros Hfind. unfold update_one_inc. rewrite Hfind.
  apply list_find_Some in Hfind as (_ & [_ Hex] & _).
  apply Exists_exists in Hex as (p0 & Hin & Hp0).
  destruct (list_find_elem_of (has_sku part_sku) _ p0 Hin Hp0) as [[j p] Hjp].
  exists j, p. by rewrite Hjp.
Qed.

Lemma find_one_Some {A} (P : A → Prop) `{!∀ x, Decision (P x)} l x :
  find_one P l = Some x → x ∈ l ∧ P x.
Proof.
  unfold find_one. intros ([i y] & Hf & ->)%fmap_Some.
  apply list_find_Some in Hf as (Hl & HP & _).
  split; [by eapply list_elem_of_lookup_2 | done].
Qed.

Lemma find_one_None {A} (P : A → Prop) `{!∀ x, Decision (P x)} l :
  find_one P l = None ↔ ∀ x, x ∈ l → ¬ P x.
Proof.
  unfold find_one. rewrite fmap_None, list_find_None, Forall_forall. done.
Qed.

Lemma find_one_is_Some {A} (P : A → Prop) `{!∀ x, Decision (P x)} l x :
  x ∈ l → P x → is_Some (find_one P l).
Proof.
  intros Hin HP. destruct (find_one P l) eqn:E; [eauto|].
  rewrite find_one_None in E. by destruct (E x).
Qed.

(** A batch that carries the SKU makes the filter of [update_one] match. *)
Lemma matching_batch_found batch_id part_sku collection d :
  d ∈ collection → has_batch_id batch_id d →
  Exists (has_sku part_sku) (BatchAllocation.parts_manifest (fields d)) →
  is_Some (list_find (has_batch_id_and_sku batch_id part_sku) collection).
Proof. intros. by eapply list_find_elem_of. Qed.


Lemma run_report_failure batch_id part_sku db :
  run (report_failure batch_id part_sku) db =
  match find_one (has_batch_id batch_id) (batch_collection db) with
  | None => (inl not_found, db)
  | Some _ =>
      let r := batch_update_inc batch_id part_sku db in
      (if decide (r.1 = 0) then inl part_not_in_manifest
       else inr failure_logged, r.2)
  end.
Proof.
  simpl. destruct (find_one _ _); [|done]. simpl.
  by destruct (decide _).
Qed.

Lemma run_report_failure_matched batch_id part_sku db i d :
  list_find (has_batch_id_and_sku batch_id part_sku) (batch_collection db)
    = Some (i, d) →
  ∃ j p,
    list_find (has_sku part_sku) (BatchAllocation.parts_manifest (fields d))
      = Some (j, p) ∧
    run (report_failure batch_id part_sku) db =
      (inr failure_logged,
       {| admin_collection := admin_collection db;
          vendor_collection := vendor_collection db;
          batch_collection :=
            <[i := with_parts_manifest
                     (<[j := inc_failures_logged p]>
                        (BatchAllocation.parts_manifest (fields d))) d]>
              (batch_collection db);
          next_oid := next_oid db |}).
Proof.
  intros Hfind.
  destruct (update_one_inc_matched _ _ _ _ _ Hfind) as (j & p & Hjp & Hupd).
  exists j, p. split; [done|].
  rewrite run_report_failure.
  apply list_find_Some in Hfind as (Hl & [Hid _] & _).
  destruct (find_one_is_Some (has_batch_id batch_id) (batch_collection db) d)
    as [d0 ->]; [by eapply list_elem_of_lookup_2 | done |].
  unfold batch_update_inc. rewrite Hupd. done.
Qed.

(** C5. [report_failure] with a batch id that no document of the batch
    ledger carries raises 404 "Batch not found", and the database (so
    every record of the ledger) is what it was. *)
Theorem report_failure_unknown_batch batch_id part_sku db :
  (∀ d, d ∈ batch_collection db → ¬ has_batch_id batch_id d) →
  run (report_failure batch_id part_sku) db
  = (inl (HTTPException 404 "Batch not found"), db).
Proof.
  intros Hnone. rewrite run_report_failure.
  by rewrite (proj2 (find_one_None (has_batch_id batch_id) _) Hnone).
Qed.

(** C6. When the batch exists but no entry of the manifest of a batch
    with that id has the SKU, [report_failure] raises 400 "Part SKU not
    found in this batch" and the database is what it was: no
    [failures_logged] has moved. *)
Theorem report_failure_unknown_sku batch_id part_sku db :
  (∃ d, d ∈ batch_collection db ∧ has_batch_id batch_id d) →
  (∀ d, d ∈ batch_collection db → has_batch_id batch_id d →
        Forall (λ p, BatchPart.part_sku p ≠ part_sku)
          (BatchAllocation.parts_manifest (fields d))) →
  run (report_failure batch_id part_sku) db
  = (inl (HTTPException 400 "Part SKU not found in this batch"), db).
Proof.
  intros (d & Hd & Hid) Hno. rewrite run_report_failure.
  destruct (find_one_is_Some (has_batch_id batch_id) _ d Hd Hid) as [d0 ->].
  unfold batch_update_inc. rewrite update_one_inc_unmatched.
  - simpl. by destruct db.
  - apply list_find_None, Forall_forall. intros d' Hd' [Hid' Hex].
    apply Exists_exists in Hex as (p & Hp & Hsku).
    specialize (Hno d' Hd' Hid'). rewrite Forall_forall in Hno.
    by apply (Hno p Hp).
Qed.

(** C3. When some batch with id [batch_id] has the SKU in its manifest,
    [report_failure] succeeds; it adds exactly one to [failures_logged]
    of one entry with that SKU in one batch with that id (the batch
    itself when the id is unique), and every other field of the entry,
    every other entry, every other field of the batch, every other
    batch, every vendor (with its stored [durability_score]) and every
    service center is what it was. *)
Theorem report_failure_frame batch_id part_sku db d :
  d ∈ batch_collection db →
  has_batch_id batch_id d →
  Exists (has_sku part_sku) (BatchAllocation.parts_manifest (fields d)) →
  ∃ i j d0 p0 d1 p1 db',
    run (report_failure batch_id part_sku) db = (inr failure_logged, db') ∧
    batch_collection db !! i = Some d0 ∧
    BatchAllocation.batch_allocation_id (fields d0) = batch_id ∧
    BatchAllocation.parts_manifest (fields d0) !! j = Some p0 ∧
    BatchPart.part_sku p0 = part_sku ∧
    ((∀ d', d' ∈ batch_collection db → has_batch_id batch_id d' → d' = d) →
     d0 = d) ∧
    batch_collection db' !! i = Some d1 ∧
    BatchAllocation.parts_manifest (fields d1) !! j = Some p1 ∧
    BatchPart.failures_logged p1 = (BatchPart.failures_logged p0 + 1)%Z ∧
    BatchPart.part_sku p1 = BatchPart.part_sku p0 ∧
    BatchPart.part_name p1 = BatchPart.part_name p0 ∧
    BatchPart.quantity p1 = BatchPart.quantity p0 ∧
    length (BatchAllocation.parts_manifest (fields d1))
      = length (BatchAllocation.parts_manifest (fields d0)) ∧
    (∀ j', j' ≠ j →
       BatchAllocation.parts_manifest (fields d1) !! j'
       = BatchAllocation.parts_manifest (fields d0) !! j') ∧
    _id d1 = _id d0 ∧
    BatchAllocation.batch_allocation_id (fields d1)
      = BatchAllocation.batch_allocation_id (fields d0) ∧
    BatchAllocation.company_name (fields d1)
      = BatchAllocation.company_name (fields d0) ∧
    BatchAllocation.vendor_details (fields d1)
      = BatchAllocation.vendor_details (fields d0) ∧
    BatchAllocation.batch_info (fields d1)
      = BatchAllocation.batch_info (fields d0) ∧
    length (batch_collection db') = length (batch_collection db) ∧
    (∀ i', i' ≠ i → batch_collection db' !! i' = batch_collection db !! i') ∧
    vendor_collection db' = vendor_collection db ∧
    admin_collection db' = admin_collection db ∧
    next_oid db' = next_oid db.
Proof.
  intros Hd Hid Hex.
  destruct (matching_batch_found _ _ _ _ Hd Hid Hex) as [[i d0] Hfind].
  destruct (run_report_failure_matched _ _ _ _ _ Hfind) as (j & p0 & Hjp & Hrun).
  pose proof Hfind as (Hi & [Hid0 _] & _)%list_find_Some.
  pose proof Hjp as (Hj & Hsku & _)%list_find_Some.
  eexists i, j, d0, p0,
    (with_parts_manifest
       (<[j := inc_failures_logged p0]>
          (BatchAllocation.parts_manifest (fields d0))) d0),
    (inc_failures_logged p0), _.
  split; [exact Hrun|]. simpl.
  split_and!; try done.
  - intros Huniq. apply Huniq; [by eapply list_elem_of_lookup_2 | done].
  - apply list_lookup_insert_eq. by eapply lookup_lt_Some.
  - simpl. apply list_lookup_insert_eq. by eapply lookup_lt_Some.
  - simpl. by rewrite length_insert.
  - intros j' Hne. simpl. by apply list_lookup_insert_ne.
  - by rewrite length_insert.
  - intros i' Hne. by apply list_lookup_insert_ne.
Qed.

(** C10. When the batch found for [batch_id] lists the SKU more than
    once, [report_failure] succeeds, adds one to [failures_logged] of
    the first entry with that SKU in manifest order, and leaves every
    other entry, the later duplicates among them, as it was. *)
Theorem report_failure_first_duplicate batch_id part_sku db i d j1 j2 p1 p2 :
  list_find (has_batch_id batch_id) (batch_collection db) = Some (i, d) →
  BatchAllocation.parts_manifest (fields d) !! j1 = Some p1 →
  BatchAllocation.parts_manifest (fields d) !! j2 = Some p2 →
  BatchPart.part_sku p1 = part_sku →
  BatchPart.part_sku p2 = part_sku →
  j1 < j2 →
  (∀ j p, j < j1 → BatchAllocation.parts_manifest (fields d) !! j = Some p →
          BatchPart.part_sku p ≠ part_sku) →
  ∃ d' p1' db',
    run (report_failure batch_id part_sku) db = (inr failure_logged, db') ∧
    batch_collection db' !! i = Some d' ∧
    BatchAllocation.parts_manifest (fields d') !! j1 = Some p1' ∧
    BatchPart.failures_logged p1' = (BatchPart.failures_logged p1 + 1)%Z ∧
    BatchAllocation.parts_manifest (fields d') !! j2 = Some p2 ∧
    (∀ j, j ≠ j1 →
       BatchAllocation.parts_manifest (fields d') !! j
       = BatchAllocation.parts_manifest (fields d) !! j).
Proof.
  intros Hfind H1 H2 Hs1 Hs2 Hlt Hfirst.
  apply list_find_Some in Hfind as (Hi & Hid & Hleast).
  assert (list_find (has_batch_id_and_sku batch_id part_sku)
            (batch_collection db) = Some (i, d)) as Hboth.
  { apply list_find_Some. split_and!; [done| |].
    - split; [done|]. apply Exists_exists. exists p1.
      split; [by eapply list_elem_of_lookup_2 | done].
    - intros i' d' Hi' Hlt' [Hid' _]. by eapply Hleast. }
  destruct (run_report_failure_matched _ _ _ _ _ Hboth) as (j & p & Hjp & Hrun).
  assert (j = j1 ∧ p = p1) as [-> ->].
  { apply list_find_Some in Hjp as (Hj & Hp & Hjleast).
    destruct (decide (j = j1)) as [->|Hne]; [split; [done | congruence]|].
    exfalso. destruct (decide (j < j1)).
    - by eapply Hfirst.
    - eapply (Hjleast j1 p1); [done | lia | done]. }
  eexists
    (with_parts_manifest
       (<[j1 := inc_failures_logged p1]>
          (BatchAllocation.parts_manifest (fields d))) d),
    (inc_failures_logged p1), _.
  split; [exact Hrun|]. simpl.
  split_and!.
  - apply list_lookup_insert_eq. by eapply lookup_lt_Some.
  - simpl. apply list_lookup_insert_eq. by eapply lookup_lt_Some.
  - done.
  - simpl. rewrite list_lookup_insert_ne by lia. done.
  - intros j Hne. simpl. by apply list_lookup_insert_ne.
Qed.


(** ** What one request does to the database *)


(** A request leaves the database alone, or appends one document to one
    collection, or is a successful [report_failure]. *)
Lemma serve_cases r db :
  serve db r = db ∨
  (∃ c, serve db r = (admin_insert c db).2) ∨
  (∃ v, r = POST_register_vendor v ∧
        find_one (has_vendor_id (Vendor.vendor_id v)) (vendor_collection db)
          = None ∧
        serve db r = (vendor_insert v db).2) ∨
  (∃ b, r = POST_add_batch b ∧ serve db r = (batch_insert b db).2) ∨
  (∃ batch_id part_sku i d j p,
     r = POST_report_failure batch_id part_sku ∧
     list_find (has_batch_id_and_sku batch_id part_sku) (batch_collection db)
       = Some (i, d) ∧
     list_find (has_sku part_sku) (BatchAllocation.parts_manifest (fields d))
       = Some (j, p) ∧
     run (handler r) db =
       (inr failure_logged,
        {| admin_collection := admin_collection db;
           vendor_collection := vendor_collection db;
           batch_collection :=
             <[i := with_parts_manifest
                      (<[j := inc_failures_logged p]>
                         (BatchAllocation.parts_manifest (fields d))) d]>
               (batch_collection db);
           next_oid := next_oid db |})).
Proof.
  destruct r; unfold serve; try (by left).
  - (* register_center *)
    simpl. destruct (find_one _ _); [by left | right; left; eauto].
  - simpl. destruct (find_one _ _); by left.
  - simpl. destruct (find_one _ _); by left.
  - (* register_vendor *)
    simpl. destruct (find_one _ _) eqn:E; [by left |].
    right; right; left. eauto.
  - (* add_batch *)
    simpl. destruct (find_one _ _); [by left |].
    right; right; right; left. eauto.
  - (* report_failure *)
    destruct (list_find (has_batch_id_and_sku batch_id part_sku)
                (batch_collection db)) as [[i d]|] eqn:E.
    + destruct (run_report_failure_matched _ _ _ _ _ E)
        as (j & p & Hjp & Hrun).
      do 4 right. exists batch_id, part_sku, i, d, j, p. done.
    + left. unfold handler. rewrite run_report_failure.
      destruct (find_one _ _); [|done].
      unfold batch_update_inc. rewrite (update_one_inc_unmatched _ _ _ E).
      simpl. by destruct db.
  - (* get_vendor_analytics *)
    simpl. destruct (find_one _ _); [|by left]. simpl.
    by destruct (durability_score_of _ _); left.
  - simpl. destruct (find_one _ _); [by left | right; left; eauto].
  - simpl. destruct (find_one _ _); by left.
Qed.

(** C9. Whatever the request, an entry of a manifest that is in the
    ledger before it is there afterwards, at the same place, with the
    same SKU, name and quantity and a [failures_logged] that is at least
    what it was.  The counter moves only when the request is a
    successful [report_failure] for the id of that batch and the SKU of
    that entry, and then by exactly one. *)
Theorem failures_logged_monotone r db i d j p :
  batch_collection db !! i = Some d →
  BatchAllocation.parts_manifest (fields d) !! j = Some p →
  ∃ d' p',
    batch_collection (serve db r) !! i = Some d' ∧
    BatchAllocation.parts_manifest (fields d') !! j = Some p' ∧
    BatchPart.part_sku p' = BatchPart.part_sku p ∧
    BatchPart.part_name p' = BatchPart.part_name p ∧
    BatchPart.quantity p' = BatchPart.quantity p ∧
    (BatchPart.failures_logged p ≤ BatchPart.failures_logged p')%Z ∧
    (BatchPart.failures_logged p' = BatchPart.failures_logged p ∨
     BatchPart.failures_logged p' = (BatchPart.failures_logged p + 1)%Z ∧
     (run (handler r) db).1 = inr failure_logged ∧
     r = POST_report_failure
           (BatchAllocation.batch_allocation_id (fields d))
           (BatchPart.part_sku p)).
Proof.
  intros Hi Hj.
  destruct (serve_cases r db)
    as [-> | [[c ->] | [(v & _ & _ & ->) | [(b & _ & ->) |
        (bid & sku & i0 & d0 & j0 & p0 & -> & Hfind & Hsku & Hrun)]]]].
  - exists d, p. split_and!; auto with lia.
  - exists d, p. simpl. split_and!; auto with lia.
  - exists d, p. simpl. split_and!; auto with lia.
  - exists d, p. simpl. split_and!; auto using lookup_app_l_Some with lia.
  - unfold serve. rewrite Hrun. simpl.
    apply list_find_Some in Hfind as (Hi0 & [Hid0 _] & _).
    apply list_find_Some in Hsku as (Hj0 & Hp0 & _).
    destruct (decide (i = i0)) as [->|Hne].
    + assert (d0 = d) as -> by congruence.
      rewrite list_lookup_insert_eq by (by eapply lookup_lt_Some).
      destruct (decide (j = j0)) as [->|Hnej].
      * assert (p0 = p) as -> by congruence.
        eexists _, (inc_failures_logged p). split; [done|]. simpl.
        rewrite list_lookup_insert_eq by (by eapply lookup_lt_Some).
        unfold has_batch_id in Hid0. unfold has_sku in Hp0.
        split_and!; auto with lia. right. split_and!; [done..|congruence].
      * eexists _, p. split; [done|]. simpl.
        rewrite list_lookup_insert_ne by done.
        split_and!; auto with lia.
    + exists d, p. rewrite list_lookup_insert_ne by done.
      split_and!; auto with lia.
Qed.

(** ** The vendor registry *)

Lemma reachable_vendor_ids_unique db :
  reachable db →
  NoDup ((λ d, Vendor.vendor_id (fields d)) <$> vendor_collection db).
Proof.
  induction 1 as [|db r _ IH]; [apply NoDup_nil_2|].
  destruct (serve_cases r db)
    as [-> | [[c ->] | [(v & _ & Hnew & ->) | [(b & _ & ->) |
        (bid & sku & i0 & d0 & j0 & p0 & -> & _ & _ & Hrun)]]]];
    try done.
  - simpl. rewrite fmap_app. apply NoDup_app. split_and!; [done| |].
    + intros x Hx [->|[]%elem_of_nil]%elem_of_cons. simpl in Hx.
      apply list_elem_of_fmap in Hx as (d & Hid & Hd).
      rewrite find_one_None in Hnew. by apply (Hnew d Hd).
    + simpl. apply NoDup_singleton.
  - unfold serve. by rewrite Hrun.
Qed.

Lemma filter_none {A} (P : A → Prop) `{!∀ x, Decision (P x)} (l : list A) :
  (∀ x, x ∈ l → ¬ P x) → filter P l = [].
Proof.
  induction l as [|y l IH]; intros HP; [done|].
  rewrite filter_cons, decide_False by (apply HP; left).
  apply IH. intros x Hx. apply HP. by right.
Qed.

Lemma unique_key_count {A} (f : A → string) (k : string) (l : list A) x :
  NoDup (f <$> l) → x ∈ l → f x = k →
  length (filter (λ y, f y = k) l) = 1.
Proof.
  induction l as [|y l IH]; intros Hnd Hin Hk; [by apply elem_of_nil in Hin|].
  rewrite fmap_cons in Hnd. apply NoDup_cons in Hnd as [Hy Hnd].
  rewrite filter_cons. apply elem_of_cons in Hin as [->|Hin].
  - rewrite decide_True by done. simpl. f_equal.
    rewrite filter_none; [done|].
    intros z Hz Hfz. apply Hy. rewrite Hk, <- Hfz. by apply list_elem_of_fmap_2.
  - rewrite decide_False; [by apply IH|].
    intros Hfy. apply Hy. rewrite Hfy, <- Hk. by apply list_elem_of_fmap_2.
Qed.

(** X18. In a database produced by requests served one after the other,
    [register_vendor] raises 400 "Vendor ID already exists" exactly when
    a vendor with that [vendor_id] is registered; the database is then
    what it was and holds one record with that id.  Otherwise it appends
    the vendor, with the [durability_score] of the request or 100.0 when
    the request has none, and answers with the new identifier. *)
Theorem register_vendor_duplicate_key db vendor_id name category contact
    durability_score :
  reachable db →
  let vendor := Vendor.parse vendor_id name category contact durability_score in
  let duplicate_key := HTTPException 400 "Vendor ID already exists" in
  let r := run (register_vendor vendor) db in
  (r.1 = inl duplicate_key ↔
   ∃ d, d ∈ vendor_collection db ∧ Vendor.vendor_id (fields d) = vendor_id) ∧
  (r.1 = inl duplicate_key →
   r.2 = db ∧
   length (filter (has_vendor_id vendor_id) (vendor_collection db)) = 1) ∧
  (r.1 ≠ inl duplicate_key →
   ∃ oid,
     r.1 = inr (message_id_response "Vendor Registered" (ObjectId_str oid)) ∧
     vendor_collection r.2 =
       vendor_collection db ++
       [{| _id := IdObject oid;
           fields :=
             {| Vendor.vendor_id := vendor_id; Vendor.name := name;
                Vendor.category := category; Vendor.contact := contact;
                Vendor.durability_score :=
                  match durability_score with
                  | Some score => score
                  | None => S754_finite false (100 * 2 ^ 46) (-46)
                  end |} |}] ∧
     length (filter (has_vendor_id vendor_id) (vendor_collection r.2)) = 1 ∧
     batch_collection r.2 = batch_collection db ∧
     admin_collection r.2 = admin_collection db).
Proof.
  intros Hreach vendor duplicate_key r. subst r. simpl.
  pose proof (reachable_vendor_ids_unique db Hreach) as Hnd.
  destruct (find_one (has_vendor_id vendor_id) (vendor_collection db))
    as [d|] eqn:E; simpl.
  - apply find_one_Some in E as [Hd Hid].
    split_and!; [split; eauto | | done].
    intros _. split; [done|].
    by eapply (unique_key_count (λ d, Vendor.vendor_id (fields d))).
  - rewrite find_one_None in E.
    split_and!; [split; [done|] | done |].
    + intros (d & Hd & Hid). by destruct (E d Hd).
    + intros _. eexists. split; [done|]. split_and!; try done.
      rewrite filter_app, length_app.
      rewrite (filter_none _ (vendor_collection db)) by done.
      by rewrite filter_cons, decide_True.
Qed.

(** ** The scoring engine *)

Lemma analytics_part_loop acc parts :
  let acc' :=
    foldl (λ acc part,
      {| batches := batches acc;
         total_parts_supplied_acc :=
           (total_parts_supplied_acc acc + BatchPart.quantity part)%Z;
         total_failures_acc :=
           (total_failures_acc acc + BatchPart.failures_logged part)%Z |})
      acc parts in
  batches acc' = batches acc ∧
  total_parts_supplied_acc acc'
    = (total_parts_supplied_acc acc
       + foldr Z.add 0 (BatchPart.quantity <$> parts))%Z ∧
  total_failures_acc acc'
    = (total_failures_acc acc
       + foldr Z.add 0 (BatchPart.failures_logged <$> parts))%Z.
Proof.
  revert acc. induction parts as [|p parts IH]; intros acc; csimpl.
  - split_and!; [done | lia | lia].
  - destruct (IH {| batches := batches acc;
         total_parts_supplied_acc :=
           (total_parts_supplied_acc acc + BatchPart.quantity p)%Z;
         total_failures_acc :=
           (total_failures_acc acc + BatchPart.failures_logged p)%Z |})
      as (Hb & Hs & Hf).
    csimpl in *. rewrite Hb, Hs, Hf. split_and!; [done | lia | lia].
Qed.

Lemma analytics_loop_totals cursor :
  let entries :=
    cursor ≫= (λ d, BatchAllocation.parts_manifest (fields d)) in
  batches (analytics_loop cursor) = fix_id <$> cursor ∧
  total_parts_supplied_acc (analytics_loop cursor)
    = foldr Z.add 0%Z (BatchPart.quantity <$> entries) ∧
  total_failures_acc (analytics_loop cursor)
    = foldr Z.add 0%Z (BatchPart.failures_logged <$> entries).
Proof.
  unfold analytics_loop.
  set (body := λ acc batch, foldl _ _ _).
  set (acc0 := {| batches := [] |}).
  cut (∀ acc,
    batches (foldl body acc cursor) = batches acc ++ (fix_id <$> cursor) ∧
    total_parts_supplied_acc (foldl body acc cursor)
      = (total_parts_supplied_acc acc
         + foldr Z.add 0 (BatchPart.quantity <$>
             (cursor ≫= λ d, BatchAllocation.parts_manifest (fields d))))%Z ∧
    total_failures_acc (foldl body acc cursor)
      = (total_failures_acc acc
         + foldr Z.add 0 (BatchPart.failures_logged <$>
             (cursor ≫= λ d, BatchAllocation.parts_manifest (fields d))))%Z).
  { intros H. destruct (H acc0) as (Hb & Hs & Hf). simpl in *.
    rewrite Hb, Hs, Hf. done. }
  assert (∀ acc d,
    batches (body acc d) = batches acc ++ [fix_id d] ∧
    total_parts_supplied_acc (body acc d)
      = (total_parts_supplied_acc acc
         + foldr Z.add 0 (BatchPart.quantity <$>
             BatchAllocation.parts_manifest (fields d)))%Z ∧
    total_failures_acc (body acc d)
      = (total_failures_acc acc
         + foldr Z.add 0 (BatchPart.failures_logged <$>
             BatchAllocation.parts_manifest (fields d)))%Z) as Hbody.
  { intros acc d. unfold body.
    match goal with
    | |- context [foldl ?f ?a ?l] => apply (analytics_part_loop a l)
    end. }
  assert (∀ (l : list Z) z, foldr Z.add z l = (foldr Z.add 0 l + z)%Z) as Hshift.
  { clear. induction l as [|x l IH]; intros z; simpl; [lia|].
    rewrite (IH z). lia. }
  clearbody body. clear acc0.
  induction cursor as [|d cursor IH]; intros acc; csimpl.
  - rewrite app_nil_r. split_and!; [done | lia | lia].
  - destruct (IH (body acc d)) as (Hb & Hs & Hf). rewrite Hb, Hs, Hf.
    destruct (Hbody acc d) as (Hb' & Hs' & Hf'). rewrite Hb', Hs', Hf'.
    rewrite !fmap_app, !foldr_app, <- app_assoc. simpl.
    set (entries := cursor ≫= _).
    pose proof (Hshift
      (BatchPart.quantity <$> BatchAllocation.parts_manifest (fields d))
      (foldr Z.add 0%Z (BatchPart.quantity <$> entries))).
    pose proof (Hshift
      (BatchPart.failures_logged <$> BatchAllocation.parts_manifest (fields d))
      (foldr Z.add 0%Z (BatchPart.failures_logged <$> entries))).
    split_and!; [done | lia | lia].
Qed.

Lemma round2_100 : round2 (float_of_int 100) = float_of_int 100.
Proof. vm_compute. reflexivity. Qed.

(** C8. [get_vendor_analytics] leaves the database as it found it, so a
    second run right after the first meets the same records and gives
    the same answer; the answer is the same in any database with the
    same vendor registry and the same batch ledger. *)
Theorem get_vendor_analytics_read_only db vendor_id :
  (run (get_vendor_analytics vendor_id) db).2 = db ∧
  run (get_vendor_analytics vendor_id)
      (run (get_vendor_analytics vendor_id) db).2
  = run (get_vendor_analytics vendor_id) db ∧
  (run (get_vendor_analytics vendor_id) db).1
  = (run (get_vendor_analytics vendor_id)
         {| admin_collection := []; vendor_collection := vendor_collection db;
            batch_collection := batch_collection db; next_oid := 0 |}).1.
Proof.
  assert ((run (get_vendor_analytics vendor_id) db).2 = db) as Hro.
  { simpl. destruct (find_one _ _); [|done]. simpl.
    by destruct (durability_score_of _ _). }
  split_and!; [done | by rewrite Hro |].
  simpl. destruct (find_one _ _); [|done]. simpl.
  by destruct (durability_score_of _ _).
Qed.

Lemma run_get_vendor_analytics db vendor_id d :
  find_one (has_vendor_id vendor_id) (vendor_collection db) = Some d →
  run (get_vendor_analytics vendor_id) db =
  (match durability_score_of (totalSupplied vendor_id db)
           (totalFailures vendor_id db) with
   | PyOk score =>
       inr (analytics_response
         {| vendor_name := Vendor.name (fields d);
            calculated_durability_score := round2 score;
            total_parts_supplied := totalSupplied vendor_id db;
            total_failures_detected := totalFailures vendor_id db;
            batches_analyzed :=
              length (filter (supplied_by vendor_id) (batch_collection db)) |})
   | PyZeroDivisionError => inl ZeroDivisionError
   | PyOverflowError => inl OverflowError
   end, db).
Proof.
  intros Hd. simpl. rewrite Hd. simpl.
  destruct (analytics_loop_totals
              (filter (supplied_by vendor_id) (batch_collection db)))
    as (Hb & Hs & Hf).
  rewrite Hb, Hs, Hf, length_fmap.
  unfold totalSupplied, totalFailures, manifest_entries_of.
  by destruct (durability_score_of _ _).
Qed.

Lemma sum_int64_bound (l : list Z) :
  Forall int64 l → (Z.abs (foldr Z.add 0 l) ≤ Z.of_nat (length l) * 2 ^ 63)%Z.
Proof.
  induction 1 as [|z l Hz _ IH]; simpl foldr; simpl length; [simpl; lia|].
  unfold int64 in Hz. lia.
Qed.

(** Totals of 64-bit integers are far inside the range that the division
    of [get_vendor_analytics] can handle: it takes [2^958] manifest
    entries to leave it. *)
Lemma int64_totals_in_range db vendor_id :
  Forall (λ p, int64 (BatchPart.quantity p) ∧ int64 (BatchPart.failures_logged p))
    (manifest_entries_of vendor_id db) →
  (Z.of_nat (length (manifest_entries_of vendor_id db)) < 2 ^ 958)%Z →
  (Z.abs (totalSupplied vendor_id db - totalFailures vendor_id db) < 2 ^ 1023)%Z.
Proof.
  intros Hall Hlen. unfold totalSupplied, totalFailures.
  pose proof (sum_int64_bound
                (BatchPart.quantity <$> manifest_entries_of vendor_id db)) as Hq.
  pose proof (sum_int64_bound
                (BatchPart.failures_logged <$> manifest_entries_of vendor_id db))
    as Hf.
  rewrite length_fmap in Hq, Hf.
  assert (2 ^ 1023 = 2 ^ 958 * (2 * 2 ^ 63) * 2)%Z as -> by reflexivity.
  assert (0 < 2 ^ 63)%Z by reflexivity.
  assert (0 < 2 ^ 958)%Z by reflexivity.
  assert (Forall int64 (BatchPart.quantity <$> manifest_entries_of vendor_id db))
    as Hq'.
  { apply Forall_fmap. eapply Forall_impl; [exact Hall|]. by intros p [? _]. }
  assert (Forall int64
            (BatchPart.failures_logged <$> manifest_entries_of vendor_id db))
    as Hf'.
  { apply Forall_fmap. eapply Forall_impl; [exact Hall|]. by intros p [_ ?]. }
  specialize (Hq Hq'). specialize (Hf Hf'). nia.
Qed.

(** C1, amended.  For a vendor that is registered, with [totalSupplied]
    and [totalFailures] the sums of [quantity] and of [failures_logged]
    over every manifest entry of every batch whose
    [vendor_details.vendor_id] is the vendor id or a list that contains
    it, and these totals of a size that a [float] can hold
    ([|totalSupplied - totalFailures| < 2^1023]): the report carries
    these two sums and the number of these batches; the score is 100.0
    when [totalSupplied <= 0], and otherwise it is [((totalSupplied -
    totalFailures) / totalSupplied) * 100] rounded to two places.  With
    no such batch the score is 100.0. *)
Theorem vendor_analytics_score db vendor_id :
  (∃ d, d ∈ vendor_collection db ∧ Vendor.vendor_id (fields d) = vendor_id) →
  let S := totalSupplied vendor_id db in
  let F := totalFailures vendor_id db in
  (Z.abs (S - F) < 2 ^ 1023)%Z →
  ∃ d score,
    d ∈ vendor_collection db ∧ Vendor.vendor_id (fields d) = vendor_id ∧
    run (get_vendor_analytics vendor_id) db
    = (inr (analytics_response
              {| vendor_name := Vendor.name (fields d);
                 calculated_durability_score := score;
                 total_parts_supplied := S;
                 total_failures_detected := F;
                 batches_analyzed :=
                   length (filter (supplied_by vendor_id)
                                  (batch_collection db)) |}), db) ∧
    ((S ≤ 0)%Z → score = float_of_int 100) ∧
    ((0 < S)%Z →
     ∃ q, int_true_divide (S - F) S = PyOk q ∧
          score = round2 (float_mul q (float_of_int 100))) ∧
    (filter (supplied_by vendor_id) (batch_collection db) = [] →
     S = 0%Z ∧ F = 0%Z ∧ score = float_of_int 100).
Proof.
  intros (d0 & Hd0 & Hid0) S F Habs.
  destruct (find_one_is_Some (has_vendor_id vendor_id) _ d0 Hd0 Hid0)
    as [d Hfind].
  pose proof (find_one_Some _ _ _ Hfind) as [Hd Hid].
  pose proof (run_get_vendor_analytics db vendor_id d Hfind) as Hrun.
  fold S F in Hrun. unfold durability_score_of in Hrun.
  assert (filter (supplied_by vendor_id) (batch_collection db) = [] →
          S = 0%Z ∧ F = 0%Z) as Hnil.
  { intros Hnil. unfold S, F, totalSupplied, totalFailures, manifest_entries_of.
    by rewrite Hnil. }
  destruct (0 <? S)%Z eqn:E.
  - apply Z.ltb_lt in E.
    destruct (int_true_divide_in_range (S - F) S E Habs) as [q Hq].
    rewrite Hq in Hrun.
    exists d, (round2 (float_mul q (float_of_int 100))).
    split_and!; [done | done | exact Hrun | lia | by eauto |].
    intros Hn. destruct (Hnil Hn). lia.
  - apply Z.ltb_ge in E. rewrite round2_100 in Hrun.
    exists d, (float_of_int 100).
    split_and!; [done | done | exact Hrun | done | lia |].
    intros Hn. by destruct (Hnil Hn).
Qed.

(** C2. From the empty database: registering vendor V-DENSO-09 with
    score snapshot 100.0, logging batch TOYOTA_202403A001 with 100 spark
    plugs 90919-01191 and no failure, and reporting three failures
    against that batch and SKU all succeed, and the analytics of
    V-DENSO-09 are then 100 parts supplied, 3 failures, score 97.0, one
    batch. *)
Theorem end_to_end_scenario name category contact company_name batch_info :
  (session empty_db
     [ POST_register_vendor
         (Vendor.parse "V-DENSO-09" name category contact
            (Some (S754_finite false (100 * 2 ^ 46) (-46))));
       POST_add_batch
         {| BatchAllocation.batch_allocation_id := "TOYOTA_202403A001";
            BatchAllocation.company_name := company_name;
            BatchAllocation.vendor_details :=
              {[ "vendor_id" := JStr "V-DENSO-09" ]};
            BatchAllocation.batch_info := batch_info;
            BatchAllocation.parts_manifest :=
              [BatchPart.parse "90919-01191" "Spark Plug" 100 (Some 0%Z)] |};
       POST_report_failure "TOYOTA_202403A001" "90919-01191";
       POST_report_failure "TOYOTA_202403A001" "90919-01191";
       POST_report_failure "TOYOTA_202403A001" "90919-01191";
       GET_vendor_analytics "V-DENSO-09" ]).1
  = [ inr (message_id_response "Vendor Registered" "000000000000000000000000");
      inr (message_id_response "Batch Logged Successfully"
             "000000000000000000000001");
      inr failure_logged;
      inr failure_logged;
      inr failure_logged;
      inr (analytics_response
             {| vendor_name := name;
                calculated_durability_score :=
                  S754_finite false (97 * 2 ^ 46) (-46);
                total_parts_supplied := 100;
                total_failures_detected := 3;
                batches_analyzed := 1 |}) ].
Proof. vm_compute. reflexivity. Qed.

(** ** Interleaved requests *)

Lemma list_find_insert_same {A} (P : A → Prop) `{!∀ x, Decision (P x)}
    (l : list A) i x y :
  list_find P l = Some (i, x) → P y → list_find P (<[i := y]> l) = Some (i, y).
Proof.
  intros (Hi & _ & Hleast)%list_find_Some Hy. apply list_find_Some.
  split_and!; [|done|].
  - apply list_lookup_insert_eq. by eapply lookup_lt_Some.
  - intros j z Hj Hlt. rewrite list_lookup_insert_ne in Hj by lia.
    by eapply Hleast.
Qed.

Lemma list_find_insert_other {A} (P : A → Prop) `{!∀ x, Decision (P x)}
    (l : list A) i x i' z y :
  list_find P l = Some (i, x) → l !! i' = Some z → i' ≠ i → (P y → P z) →
  list_find P (<[i' := y]> l) = Some (i, x).
Proof.
  intros (Hi & Hx & Hleast)%list_find_Some Hi' Hne Hyz. apply list_find_Some.
  split_and!; [|done|].
  - by rewrite list_lookup_insert_ne.
  - intros j w Hj Hlt. destruct (decide (j = i')) as [->|Hnej].
    + rewrite list_lookup_insert_eq in Hj by (by eapply lookup_lt_Some).
      injection Hj as <-. intros Hy. by eapply (Hleast i' z), Hyz.
    + rewrite list_lookup_insert_ne in Hj by done. by eapply Hleast.
Qed.

Lemma Exists_has_sku_insert part_sku manifest j p :
  manifest !! j = Some p →
  Exists (has_sku part_sku) (<[j := inc_failures_logged p]> manifest) ↔
  Exists (has_sku part_sku) manifest.
Proof.
  intros Hj.
  assert (BatchPart.part_sku <$> <[j := inc_failures_logged p]> manifest
          = BatchPart.part_sku <$> manifest) as Hskus.
  { rewrite list_fmap_insert. simpl. apply list_insert_id.
    by rewrite list_lookup_fmap, Hj. }
  assert (∀ m, Exists (has_sku part_sku) m
               ↔ part_sku ∈ BatchPart.part_sku <$> m) as Hin.
  { intros m. rewrite Exists_exists, list_elem_of_fmap. unfold has_sku.
    split; intros (q & H1 & H2); exists q; by split. }
  by rewrite !Hin, Hskus.
Qed.

Lemma addressed_entry_lookup batch_id part_sku collection i j p :
  addressed_entry batch_id part_sku collection i j p →
  ∃ d, collection !! i = Some d ∧
       BatchAllocation.batch_allocation_id (fields d) = batch_id ∧
       BatchAllocation.parts_manifest (fields d) !! j = Some p ∧
       BatchPart.part_sku p = part_sku.
Proof.
  intros (d & (Hi & [Hid _] & _)%list_find_Some & (Hj & Hp & _)%list_find_Some).
  by exists d.
Qed.

Lemma addressed_entry_app batch_id part_sku collection l i j p :
  addressed_entry batch_id part_sku collection i j p →
  addressed_entry batch_id part_sku (collection ++ l) i j p.
Proof.
  intros (d & Hd & Hp). exists d. split; [|done]. by apply list_find_app_l.
Qed.

(** The [$inc] for the entry itself: one document is modified and the
    entry stays the addressed one, with one more failure. *)
Lemma addressed_entry_own_update batch_id part_sku collection i j p :
  addressed_entry batch_id part_sku collection i j p →
  (update_one_inc batch_id part_sku collection).1 = 1 ∧
  addressed_entry batch_id part_sku
    (update_one_inc batch_id part_sku collection).2 i j (inc_failures_logged p).
Proof.
  intros (d & Hd & Hp).
  destruct (update_one_inc_matched _ _ _ _ _ Hd) as (j' & p' & Hp' & ->).
  assert (j' = j ∧ p' = p) as [-> ->] by (split; congruence).
  split; [done|]. simpl.
  pose proof Hd as (Hi & [Hid Hex] & _)%list_find_Some.
  pose proof Hp as (Hj & Hsku & _)%list_find_Some.
  eexists. split.
  - eapply list_find_insert_same; [done|]. split; [done|]. simpl.
    by apply Exists_has_sku_insert.
  - simpl. by eapply list_find_insert_same.
Qed.

(** The [$inc] for another batch id or another SKU leaves the entry
    where and as it is. *)
Lemma addressed_entry_foreign_update batch_id part_sku b s collection i j p :
  ¬ (b = batch_id ∧ s = part_sku) →
  addressed_entry batch_id part_sku collection i j p →
  addressed_entry batch_id part_sku (update_one_inc b s collection).2 i j p.
Proof.
  intros Hne (d & Hd & Hp).
  destruct (list_find (has_batch_id_and_sku b s) collection)
    as [[i' d']|] eqn:E.
  2: { rewrite update_one_inc_unmatched by done. by exists d. }
  destruct (update_one_inc_matched _ _ _ _ _ E) as (j' & p' & Hp' & ->). simpl.
  pose proof Hd as (Hi & [Hid Hex] & _)%list_find_Some.
  pose proof Hp as (Hj & Hsku & _)%list_find_Some.
  pose proof E as (Hi' & [Hid' Hex'] & _)%list_find_Some.
  pose proof Hp' as (Hj' & Hsku' & _)%list_find_Some.
  destruct (decide (i' = i)) as [->|Hnei].
  - assert (d' = d) as -> by congruence.
    assert (j' ≠ j) as Hnej.
    { intros ->. assert (p' = p) as -> by congruence.
      apply Hne. unfold has_batch_id, has_sku in *. split; congruence. }
    eexists. split.
    + eapply list_find_insert_same; [done|]. split; [done|]. simpl.
      by apply Exists_has_sku_insert.
    + simpl. eapply list_find_insert_other; [done..|]. done.
  - exists d. split; [|done].
    eapply list_find_insert_other; [done..|].
    intros [Hb Hx]. split; [done|]. simpl in Hx.
    by apply Exists_has_sku_insert in Hx.
Qed.

Lemma handler_thread_ok batch_id part_sku r :
  thread_ok batch_id part_sku r (handler r).
Proof.
  unfold thread_ok. destruct (decide _) as [Hr|Hr].
  - left. destruct r; try done. by destruct Hr as [-> ->].
  - destruct r; simpl in *;
      repeat (first [ done
                    | intros []
                    | intros ?
                    | split
                    | match goal with
                      | |- context [decide ?P] => destruct (decide P)
                      | |- context [durability_score_of ?a ?b] =>
                          destruct (durability_score_of a b)
                      end ]; simpl).
Qed.

Lemma successes_against_insert batch_id part_sku requests pool k r c c' :
  requests !! k = Some r → pool !! k = Some c →
  successes_against batch_id part_sku requests (<[k := c']> pool)
  + (if decide (reports_against batch_id part_sku r ∧ succeeded c)
     then 1 else 0)
  = successes_against batch_id part_sku requests pool
    + (if decide (reports_against batch_id part_sku r ∧ succeeded c')
       then 1 else 0).
Proof.
  unfold successes_against.
  revert pool k. induction requests as [|r0 requests IH];
    intros [|c0 pool] [|k] Hr Hc; simplify_eq/=.
  - rewrite !filter_cons. simpl.
    destruct (decide (_ ∧ succeeded c')), (decide (_ ∧ succeeded c));
      simpl; lia.
  - rewrite !filter_cons. simpl.
    specialize (IH pool k Hr Hc). destruct (decide (_ ∧ succeeded c0));
      simpl; lia.
Qed.

Lemma Forall2_insert_right {A B} (P : A → B → Prop) l k i x y :
  Forall2 P l k → l !! i = Some x → P x y → Forall2 P l (<[i := y]> k).
Proof.
  intros HF Hi HP. rewrite <- (list_insert_id l i x Hi).
  by apply Forall2_insert.
Qed.

(** A database call other than [update_one] leaves the batch ledger as
    it is or appends to it. *)
Lemma await_step_ledger {A} (c c' : coroutine A) db db' :
  await_step c db = Some (c', db') →
  (∀ b s k, c ≠ batch_update_one_inc b s k) →
  ∃ l, batch_collection db' = batch_collection db ++ l.
Proof.
  intros Hstep Hc.
  destruct c; simplify_eq/=; try (by exists []; rewrite app_nil_r); eauto.
  by edestruct Hc.
Qed.

(** What holds of the pool and of the addressed entry at every moment of
    every schedule. *)
Lemma pool_step_invariant batch_id part_sku requests i j p k pool db p' :
  Forall2 (thread_ok batch_id part_sku) requests pool →
  addressed_entry batch_id part_sku (batch_collection db) i j p' →
  BatchPart.failures_logged p'
  = (BatchPart.failures_logged p
     + Z.of_nat (successes_against batch_id part_sku requests pool))%Z →
  BatchPart.part_name p' = BatchPart.part_name p →
  BatchPart.quantity p' = BatchPart.quantity p →
  ∃ p'',
    Forall2 (thread_ok batch_id part_sku) requests (pool_step k (pool, db)).1 ∧
    addressed_entry batch_id part_sku
      (batch_collection (pool_step k (pool, db)).2) i j p'' ∧
    BatchPart.failures_logged p''
    = (BatchPart.failures_logged p
       + Z.of_nat (successes_against batch_id part_sku requests
                     (pool_step k (pool, db)).1))%Z ∧
    BatchPart.part_name p'' = BatchPart.part_name p ∧
    BatchPart.quantity p'' = BatchPart.quantity p.
Proof.
  intros Hpool Hentry Hcount Hname Hqty. unfold pool_step. simpl.
  destruct (pool !! k) as [c|] eqn:Hk; [|by exists p'].
  destruct (await_step c db) as [[c' db']|] eqn:Hstep; [|by exists p'].
  simpl.
  destruct (Forall2_lookup_r _ _ _ _ _ Hpool Hk) as (r & Hr & Hok).
  pose proof (successes_against_insert batch_id part_sku requests pool k r c c'
                Hr Hk) as Hins.
  unfold thread_ok in Hok.
  destruct (decide (reports_against batch_id part_sku r)) as [Htarget|Hother].
  - (* a call for this very entry *)
    destruct Hok as [-> | [(k0 & -> & Hk0) | Hsucc]];
      [| | destruct c; simpl in *; done].
    + (* its [find_one] *)
      rewrite !decide_False in Hins by (simpl; tauto).
      destruct (addressed_entry_lookup _ _ _ _ _ _ Hentry)
        as (d & Hi & Hid & _).
      destruct (find_one_is_Some (has_batch_id batch_id) (batch_collection db) d)
        as [d0 Hd0]; [by eapply list_elem_of_lookup_2 | done |].
      simpl in Hstep. rewrite Hd0 in Hstep. simplify_eq.
      rewrite decide_False in Hins by (simpl; tauto).
      exists p'. split_and!; try done; [|lia].
      eapply Forall2_insert_right; [done..|]. unfold thread_ok.
      rewrite decide_True by done. right; left. eexists. split; [done|].
      intros n. simpl. destruct (decide (n = 0)); simpl; tauto.
    + (* its [update_one] *)
      rewrite decide_False in Hins by (simpl; tauto).
      destruct (addressed_entry_own_update _ _ _ _ _ _ Hentry)
        as [Hone Hentry'].
      simpl in Hstep. unfold batch_update_inc in Hstep. rewrite Hone in Hstep.
      simplify_eq/=. destruct (Hk0 1) as [_ Hsucc].
      exists (inc_failures_logged p'). split_and!; try done.
      * eapply Forall2_insert_right; [done..|]. unfold thread_ok.
        rewrite decide_True by done. right; right. by apply Hsucc.
      * rewrite decide_True in Hins by (split; [done | by apply Hsucc]).
        simpl. lia.
  - (* any other request *)
    rewrite !decide_False in Hins by tauto.
    assert (updates_elsewhere batch_id part_sku c' ∧
            addressed_entry batch_id part_sku (batch_collection db') i j p')
      as [Hok' Hentry'].
    { destruct c; simplify_eq/=; try (split; [apply Hok | done]);
        try (split; [apply Hok | by apply addressed_entry_app]).
      destruct Hok as [Hne Hok]. split; [apply Hok|].
      by apply addressed_entry_foreign_update. }
    exists p'. split_and!; try done.
    + eapply Forall2_insert_right; [done..|]. unfold thread_ok.
      by rewrite decide_False.
    + lia.
Qed.

Lemma schedule_invariant batch_id part_sku requests i j p s pool db p' :
  Forall2 (thread_ok batch_id part_sku) requests pool →
  addressed_entry batch_id part_sku (batch_collection db) i j p' →
  BatchPart.failures_logged p'
  = (BatchPart.failures_logged p
     + Z.of_nat (successes_against batch_id part_sku requests pool))%Z →
  BatchPart.part_name p' = BatchPart.part_name p →
  BatchPart.quantity p' = BatchPart.quantity p →
  ∃ p'',
    Forall2 (thread_ok batch_id part_sku) requests (schedule s (pool, db)).1 ∧
    addressed_entry batch_id part_sku
      (batch_collection (schedule s (pool, db)).2) i j p'' ∧
    BatchPart.failures_logged p''
    = (BatchPart.failures_logged p
       + Z.of_nat (successes_against batch_id part_sku requests
                     (schedule s (pool, db)).1))%Z ∧
    BatchPart.part_name p'' = BatchPart.part_name p ∧
    BatchPart.quantity p'' = BatchPart.quantity p.
Proof.
  revert pool db p'. induction s as [|k s IH]; intros pool db p' H1 H2 H3 H4 H5.
  - by exists p'.
  - destruct (pool_step_invariant _ _ _ _ _ _ k _ _ _ H1 H2 H3 H4 H5)
      as (p1 & G1 & G2 & G3 & G4 & G5).
    unfold schedule. simpl. destruct (pool_step k (pool, db)) as [pool1 db1].
    by apply (IH pool1 db1 p1).
Qed.

Lemma initial_pool_ok batch_id part_sku requests :
  Forall2 (thread_ok batch_id part_sku) requests (handler <$> requests) ∧
  successes_against batch_id part_sku requests (handler <$> requests) = 0.
Proof.
  unfold successes_against. induction requests as [|r requests [IH1 IH2]].
  - split; [constructor | done].
  - split.
    + rewrite fmap_cons. constructor; [apply handler_thread_ok | done].
    + rewrite fmap_cons. simpl. rewrite filter_cons, decide_False; [done|].
      simpl. intros [Hr Hs]. destruct r; done.
Qed.

(** C4. Take the entry that [update_one] addresses for [(batch_id,
    part_sku)], any requests in flight together, and any order in which
    their database calls get executed.  At the end (and at every moment
    on the way) the entry is the same part at the same place, and its
    [failures_logged] is what it was at the start plus the number of
    [report_failure(batch_id, part_sku)] calls that have returned
    success; no such call finishes otherwise than with success. *)
Theorem concurrent_report_failures requests s db batch_id part_sku i d j p :
  list_find (has_batch_id_and_sku batch_id part_sku) (batch_collection db)
    = Some (i, d) →
  list_find (has_sku part_sku) (BatchAllocation.parts_manifest (fields d))
    = Some (j, p) →
  let st := schedule s (handler <$> requests, db) in
  ∃ d' p',
    batch_collection st.2 !! i = Some d' ∧
    BatchAllocation.batch_allocation_id (fields d') = batch_id ∧
    BatchAllocation.parts_manifest (fields d') !! j = Some p' ∧
    BatchPart.part_sku p' = part_sku ∧
    BatchPart.part_name p' = BatchPart.part_name p ∧
    BatchPart.quantity p' = BatchPart.quantity p ∧
    BatchPart.failures_logged p'
    = (BatchPart.failures_logged p
       + Z.of_nat (successes_against batch_id part_sku requests st.1))%Z ∧
    (∀ k c, requests !! k = Some (POST_report_failure batch_id part_sku) →
            st.1 !! k = Some c → finished c → succeeded c).
Proof.
  intros Hd Hp st.
  destruct (initial_pool_ok batch_id part_sku requests) as [Hpool Hzero].
  destruct (schedule_invariant batch_id part_sku requests i j p s
              (handler <$> requests) db p) as (p' & G1 & G2 & G3 & G4 & G5);
    [done | by exists d | rewrite Hzero; simpl; lia | done | done |].
  fold st in G1, G2, G3.
  destruct (addressed_entry_lookup _ _ _ _ _ _ G2) as (d' & Hi & Hid & Hj & Hsku).
  exists d', p'. split_and!; try done.
  intros k c Hr Hc Hfin.
  pose proof (Forall2_lookup_lr _ _ _ _ _ _ G1 Hr Hc) as Hok.
  unfold thread_ok in Hok. rewrite decide_True in Hok by done.
  by destruct Hok as [-> | [(k0 & -> & _) | Hsucc]].
Qed.

(** * Further properties of the routes *)

(** ** Unique keys in a database served sequentially *)

Lemma batch_ids_update_one_inc batch_id part_sku collection :
  (λ d, BatchAllocation.batch_allocation_id (fields d))
    <$> (update_one_inc batch_id part_sku collection).2
  = (λ d, BatchAllocation.batch_allocation_id (fields d)) <$> collection.
Proof.
  destruct (list_find (has_batch_id_and_sku batch_id part_sku) collection)
    as [[i d]|] eqn:E.
  - destruct (update_one_inc_matched _ _ _ _ _ E) as (j & p & _ & ->). simpl.
    apply list_find_Some in E as (Hi & _ & _).
    rewrite list_fmap_insert. simpl. apply list_insert_id.
    by rewrite list_lookup_fmap, Hi.
  - by rewrite update_one_inc_unmatched.
Qed.

Lemma reachable_batch_and_center_ids_unique db :
  reachable db →
  NoDup ((λ d, BatchAllocation.batch_allocation_id (fields d))
           <$> batch_collection db) ∧
  NoDup ((λ d, center_centerId (fields d)) <$> admin_collection db).
Proof.
  intros Hreach.
  induction Hreach as [|db r _ [IHb IHc]]; [split; apply NoDup_nil_2|].
  assert (∀ {A} (f : A → string) (l : list A) (x : A),
            NoDup (f <$> l) → (∀ y, y ∈ l → f y ≠ f x) →
            NoDup (f <$> (l ++ [x]))) as Hsnoc.
  { intros A f l x Hnd Hfresh. rewrite fmap_app. apply NoDup_app.
    split_and!; [done| |apply NoDup_singleton].
    intros k Hk [->|[]%elem_of_nil]%elem_of_cons.
    apply list_elem_of_fmap in Hk as (y & Hy & Hin). by apply (Hfresh y Hin). }
  destruct r; unfold serve; simpl; try done.
  - destruct (find_one _ _) eqn:E; [done|]. simpl. split; [done|].
    apply (Hsnoc _ (λ d, center_centerId (fields d))); [done|].
    rewrite find_one_None in E. intros y Hy. by apply E.
  - by destruct (find_one _ _).
  - by destruct (find_one _ _).
  - by destruct (find_one _ _).
  - destruct (find_one _ _) eqn:E; [done|]. simpl. split; [|done].
    apply (Hsnoc _ (λ d, BatchAllocation.batch_allocation_id (fields d)));
      [done|].
    rewrite find_one_None in E. intros y Hy. by apply E.
  - destruct (find_one _ _); [|done]. simpl.
    destruct (decide _); simpl; by rewrite batch_ids_update_one_inc.
  - destruct (find_one _ _); [|done]. simpl.
    by destruct (durability_score_of _ _).
  - destruct (find_one _ _) eqn:E; [done|]. simpl. split; [done|].
    apply (Hsnoc _ (λ d, center_centerId (fields d))); [done|].
    rewrite find_one_None in E. intros y Hy. by apply E.
  - by destruct (find_one _ _).
Qed.

(** X1. In a database produced by requests served one after the other,
    no two vendors share a [vendor_id], no two batches share a
    [batch_allocation_id], and no two service centers share a
    [centerId], whichever of the two applications registered them. *)
Theorem reachable_keys_unique db :
  reachable db →
  NoDup ((λ d, Vendor.vendor_id (fields d)) <$> vendor_collection db) ∧
  NoDup ((λ d, BatchAllocation.batch_allocation_id (fields d))
           <$> batch_collection db) ∧
  NoDup ((λ d, center_centerId (fields d)) <$> admin_collection db).
Proof.
  intros Hreach. split; [by apply reachable_vendor_ids_unique|].
  by apply reachable_batch_and_center_ids_unique.
Qed.

(** X2. In such a database [add_batch] raises 400 "Batch ID already
    exists" exactly when a batch with that [batch_allocation_id] is in
    the ledger, and then changes nothing: the ledger holds one batch
    with that id.  When it answers "Batch Logged Successfully" the id
    was not in the ledger, the batch has been appended as sent, manifest
    and client-supplied [failures_logged] included, no other collection
    was touched, the answer carries the new identifier and the ledger
    holds one batch with that id. *)
Theorem add_batch_duplicate_key db batch :
  reachable db →
  let batch_id := BatchAllocation.batch_allocation_id batch in
  let duplicate_key := HTTPException 400 "Batch ID already exists" in
  let r := run (add_batch batch) db in
  (r.1 = inl duplicate_key ↔
   ∃ d, d ∈ batch_collection db ∧
        BatchAllocation.batch_allocation_id (fields d) = batch_id) ∧
  (r.1 = inl duplicate_key →
   r.2 = db ∧
   length (filter (has_batch_id batch_id) (batch_collection db)) = 1) ∧
  (∀ id, r.1 = inr (message_id_response "Batch Logged Successfully" id) →
   (∀ d, d ∈ batch_collection db →
         BatchAllocation.batch_allocation_id (fields d) ≠ batch_id) ∧
   ∃ oid,
     id = ObjectId_str oid ∧
     batch_collection r.2
     = batch_collection db ++ [{| _id := IdObject oid; fields := batch |}] ∧
     vendor_collection r.2 = vendor_collection db ∧
     admin_collection r.2 = admin_collection db ∧
     length (filter (has_batch_id batch_id) (batch_collection r.2)) = 1).
Proof.
  intros Hreach batch_id duplicate_key r. subst r batch_id. simpl.
  destruct (reachable_batch_and_center_ids_unique db Hreach) as [Hnd _].
  destruct (find_one (has_batch_id _) (batch_collection db))
    as [d|] eqn:E; simpl.
  - apply find_one_Some in E as [Hd Hid].
    split_and!; [split; eauto | | done].
    intros _. split; [done|].
    by eapply (unique_key_count
                 (λ d, BatchAllocation.batch_allocation_id (fields d))).
  - rewrite find_one_None in E.
    split_and!; [split; [done|] | done |].
    + intros (d & Hd & Hid). by destruct (E d Hd).
    + intros id [= <-]. split; [exact E|].
      eexists. split_and!; try done.
      rewrite filter_app, length_app.
      rewrite (filter_none _ (batch_collection db)) by done.
      by rewrite filter_cons, decide_True.
Qed.

(** X3. In such a database [register_center], of either application,
    raises 400 "Center ID already exists" exactly when a center with
    that [centerId] is stored, by whichever application, and then
    changes nothing: one center is stored under that id.  When it
    answers "Registered Successfully" the id was not stored, the center
    has been appended as sent, no other collection was touched, the
    answer carries the new identifier and one center is stored under
    that id. *)
Theorem register_center_duplicate_key db (center : CenterFields) :
  reachable db →
  let duplicate_key := HTTPException 400 "Center ID already exists" in
  let r := run (register_center_of center) db in
  let same_id := center_matches (by_centerId (center_centerId center)) in
  (r.1 = inl duplicate_key ↔
   ∃ d, d ∈ admin_collection db ∧
        center_centerId (fields d) = center_centerId center) ∧
  (r.1 = inl duplicate_key →
   r.2 = db ∧ length (filter same_id (admin_collection db)) = 1) ∧
  (∀ id, r.1 = inr (message_id_response "Registered Successfully" id) →
   (∀ d, d ∈ admin_collection db →
         center_centerId (fields d) ≠ center_centerId center) ∧
   ∃ oid,
     id = ObjectId_str oid ∧
     admin_collection r.2
     = admin_collection db ++ [{| _id := IdObject oid; fields := center |}] ∧
     vendor_collection r.2 = vendor_collection db ∧
     batch_collection r.2 = batch_collection db ∧
     length (filter same_id (admin_collection r.2)) = 1).
Proof.
  intros Hreach duplicate_key r same_id. subst r same_id.
  destruct (reachable_batch_and_center_ids_unique db Hreach) as [_ Hnd].
  assert (∀ c : CenterFields,
    run (register_center_of c) db =
    match find_one (center_matches (by_centerId (center_centerId c)))
            (admin_collection db) with
    | Some _ => (inl duplicate_key, db)
    | None =>
        (inr (message_id_response "Registered Successfully"
                (ObjectId_str {| oid_seq := next_oid db |})),
         (admin_insert c db).2)
    end) as Hrun.
  { intros [c|c]; simpl; by destruct (find_one _ _). }
  rewrite Hrun.
  destruct (find_one _ (admin_collection db)) as [d|] eqn:E; simpl.
  - apply find_one_Some in E as [Hd Hid]. simpl in Hid.
    split_and!; [split; eauto | | done].
    intros _. split; [done|].
    by eapply (unique_key_count (λ d, center_centerId (fields d))).
  - rewrite find_one_None in E.
    split_and!; [split; [done|] | done |].
    + intros (d & Hd & Hid). by destruct (E d Hd).
    + intros id [= <-]. split; [exact E|].
      eexists. split_and!; try done.
      rewrite filter_app, length_app.
      rewrite (filter_none _ (admin_collection db)) by done.
      by rewrite filter_cons, decide_True.
Qed.

(** ** Reading back what was registered *)

Lemma run_register_center_of (center : CenterFields) db :
  run (register_center_of center) db =
  match find_one (center_matches (by_centerId (center_centerId center)))
          (admin_collection db) with
  | Some _ => (inl (HTTPException 400 "Center ID already exists"), db)
  | None =>
      (inr (message_id_response "Registered Successfully"
              (ObjectId_str {| oid_seq := next_oid db |})),
       (admin_insert center db).2)
  end.
Proof. destruct center; simpl; by destruct (find_one _ _). Qed.

Lemma find_one_snoc {A} (P : A → Prop) `{!∀ x, Decision (P x)} l x :
  find_one P l = None → P x → find_one P (l ++ [x]) = Some x.
Proof.
  unfold find_one. intros Hnone%fmap_None HP.
  rewrite list_find_app_r by done. simpl. by rewrite decide_True.
Qed.

(** X4. When [register_center], of either application, answers with
    identifier [id], [get_center_details] for that [centerId], of either
    application, then answers with the center as sent, under ["_id"]
    equal to [id], and changes nothing. *)
Theorem register_then_get_center db (center : CenterFields) id db' :
  run (register_center_of center) db
  = (inr (message_id_response "Registered Successfully" id), db') →
  run (get_center_details (center_centerId center)) db'
  = (inr (center_response {| _id := IdStr id; fields := center |}), db') ∧
  run (AdminMainApp.get_center_details (center_centerId center)) db'
  = (inr (center_response {| _id := IdStr id; fields := center |}), db').
Proof.
  rewrite run_register_center_of.
  destruct (find_one _ (admin_collection db)) eqn:E; [done|].
  intros [= <- <-]. simpl.
  rewrite (find_one_snoc _ (admin_collection db)) by done. done.
Qed.

Lemma foldl_snoc_fmap {A B} (f : A → B) (l : list A) acc :
  foldl (λ out x, out ++ [f x]) acc l = acc ++ (f <$> l).
Proof.
  revert acc. induction l as [|x l IH]; intros acc; csimpl.
  - by rewrite app_nil_r.
  - rewrite IH, <- app_assoc. done.
Qed.

(** X5. [get_all_centers], of either application, answers with every
    stored service center, in the order of registration, the fields
    untouched and ["_id"] turned into its string; it changes nothing. *)
Theorem get_all_centers_lists_every_center db :
  let listed :=
    (λ d, {| _id := IdStr (str (_id d)); fields := fields d |})
      <$> admin_collection db in
  run get_all_centers db = (inr (centers_response listed), db) ∧
  run AdminMainApp.get_all_centers db = (inr (centers_response listed), db) ∧
  fields <$> listed = fields <$> admin_collection db.
Proof.
  simpl. rewrite !foldl_snoc_fmap. simpl. split_and!; [done..|].
  rewrite <- list_fmap_compose. done.
Qed.

(** ** The errors of the scoring engine *)

Lemma int_true_divide_defined a b :
  b ≠ 0%Z → int_true_divide a b ≠ PyZeroDivisionError.
Proof.
  intros Hb. unfold int_true_divide. destruct b; [done|..];
    (destruct (Z.abs a); [done| |done]; by destruct (nearest_ratio _ _ _)).
Qed.

(** X6. [get_vendor_analytics] raises 404 "Vendor not found" exactly
    when no vendor is registered under the id, never another
    [HTTPException] and never [ZeroDivisionError], whatever the ledger
    holds. *)
Theorem get_vendor_analytics_exceptions db vendor_id :
  let response := (run (get_vendor_analytics vendor_id) db).1 in
  (response = inl (HTTPException 404 "Vendor not found") ↔
   ∀ d, d ∈ vendor_collection db → Vendor.vendor_id (fields d) ≠ vendor_id) ∧
  (∀ status_code detail,
     response = inl (HTTPException status_code detail) →
     status_code = 404%Z ∧ detail = "Vendor not found"%string) ∧
  response ≠ inl ZeroDivisionError.
Proof.
  simpl. destruct (find_one _ _) as [d|] eqn:E; simpl.
  - apply find_one_Some in E as [Hd Hid].
    assert (∀ x y, durability_score_of x y ≠ PyZeroDivisionError) as Hdef.
    { intros x y. unfold durability_score_of.
      destruct (0 <? x)%Z eqn:Hx; [|done]. apply Z.ltb_lt in Hx.
      pose proof (int_true_divide_defined (x - y) x ltac:(lia)).
      by destruct (int_true_divide _ _). }
    match goal with
    | |- context [durability_score_of ?x ?y] =>
        specialize (Hdef x y); destruct (durability_score_of x y)
    end; simpl; split_and!; try done.
    all: split; [done|]; intros Hno; by destruct (Hno d Hd).
  - rewrite find_one_None in E. split_and!; try done.
    intros ?? [= <- <-]. done.
Qed.

(** ** How the writes show in the analytics *)

Lemma foldr_Zadd_app (l1 l2 : list Z) :
  foldr Z.add 0%Z (l1 ++ l2) = (foldr Z.add 0 l1 + foldr Z.add 0 l2)%Z.
Proof. induction l1 as [|x l1 IH]; simpl; lia. Qed.

Lemma sum_insert {A} (f : A → Z) (l : list A) j x y :
  l !! j = Some x →
  foldr Z.add 0%Z (f <$> <[j := y]> l)
  = (foldr Z.add 0 (f <$> l) - f x + f y)%Z.
Proof.
  revert j. induction l as [|z l IH]; intros [|j] Hj; simplify_eq/=.
  - lia.
  - rewrite (IH j Hj). lia.
Qed.

(** The sum over the entries of a vendor, batch by batch. *)
Lemma sum_entries_by_batch (f : BatchPart.t → Z) vendor_id collection :
  foldr Z.add 0%Z
    (f <$> (filter (supplied_by vendor_id) collection
              ≫= λ d, BatchAllocation.parts_manifest (fields d)))
  = foldr Z.add 0%Z
      ((λ d, if decide (supplied_by vendor_id d)
             then foldr Z.add 0%Z
                    (f <$> BatchAllocation.parts_manifest (fields d))
             else 0%Z) <$> collection).
Proof.
  induction collection as [|d collection IH]; [done|].
  rewrite filter_cons, fmap_cons. simpl.
  destruct (decide (supplied_by vendor_id d)).
  - rewrite bind_cons, fmap_app, foldr_Zadd_app, IH. done.
  - rewrite IH. lia.
Qed.

Lemma filter_insert_length {A} (P : A → Prop) `{!∀ x, Decision (P x)}
    (l : list A) i x y :
  l !! i = Some x → (P x ↔ P y) →
  length (filter P (<[i := y]> l)) = length (filter P l).
Proof.
  revert i. induction l as [|z l IH]; intros [|i] Hi Hxy; simplify_eq/=.
  - rewrite !filter_cons.
    destruct (decide (P y)), (decide (P x)); simpl; tauto.
  - rewrite !filter_cons. destruct (decide (P z)); simpl; by rewrite (IH i).
Qed.

Lemma analytics_of_registered db vendor_id a :
  (run (get_vendor_analytics vendor_id) db).1 = inr (analytics_response a) →
  ∃ d score,
    find_one (has_vendor_id vendor_id) (vendor_collection db) = Some d ∧
    durability_score_of (totalSupplied vendor_id db) (totalFailures vendor_id db)
      = PyOk score ∧
    a = {| vendor_name := Vendor.name (fields d);
           calculated_durability_score := round2 score;
           total_parts_supplied := totalSupplied vendor_id db;
           total_failures_detected := totalFailures vendor_id db;
           batches_analyzed :=
             length (filter (supplied_by vendor_id) (batch_collection db)) |}.
Proof.
  destruct (find_one (has_vendor_id vendor_id) (vendor_collection db))
    as [d|] eqn:E.
  - rewrite (run_get_vendor_analytics db vendor_id d E). simpl.
    destruct (durability_score_of _ _) as [score| |]; [|done..].
    intros [= <-]. by exists d, score.
  - simpl. by rewrite E.
Qed.

(** X7. A successful [report_failure] shows in the analytics of a vendor
    that the charged batch names, as its [vendor_details.vendor_id] or
    in a list that it has there, as one more failure, with the parts
    supplied, the number of batches and the name as before; the
    analytics of a vendor that the batch does not name so are what they
    were. *)
Theorem report_failure_then_analytics db batch_id part_sku db' vendor_id a a' :
  run (report_failure batch_id part_sku) db = (inr failure_logged, db') →
  (run (get_vendor_analytics vendor_id) db).1 = inr (analytics_response a) →
  (run (get_vendor_analytics vendor_id) db').1 = inr (analytics_response a') →
  ∃ i d,
    list_find (has_batch_id_and_sku batch_id part_sku) (batch_collection db)
      = Some (i, d) ∧
    if decide (names_vendor vendor_id
                 (BatchAllocation.vendor_details (fields d)))
    then vendor_name a' = vendor_name a ∧
         total_parts_supplied a' = total_parts_supplied a ∧
         total_failures_detected a' = (total_failures_detected a + 1)%Z ∧
         batches_analyzed a' = batches_analyzed a
    else a' = a.
Proof.
  intros Hrun Ha Ha'.
  destruct (list_find (has_batch_id_and_sku batch_id part_sku)
              (batch_collection db)) as [[i d]|] eqn:E.
  2: { rewrite run_report_failure in Hrun.
       destruct (find_one _ _); [|done]. unfold batch_update_inc in Hrun.
       rewrite (update_one_inc_unmatched _ _ _ E) in Hrun. done. }
  destruct (run_report_failure_matched _ _ _ _ _ E) as (j & p & Hjp & Hrun').
  rewrite Hrun' in Hrun. injection Hrun as <-.
  exists i, d. split; [done|].
  apply list_find_Some in E as (Hi & _ & _).
  apply list_find_Some in Hjp as (Hj & _ & _).
  apply analytics_of_registered in Ha as (dv & score & Hdv & Hscore & ->).
  apply analytics_of_registered in Ha' as (dv' & score' & Hdv' & Hscore' & ->).
  simpl in Hdv'. rewrite Hdv in Hdv'. injection Hdv' as <-.
  set (d' := with_parts_manifest _ d) in *.
  assert (∀ f : BatchPart.t → Z,
    foldr Z.add 0%Z
      (f <$> (filter (supplied_by vendor_id) (<[i := d']> (batch_collection db))
                ≫= λ d, BatchAllocation.parts_manifest (fields d)))
    = (foldr Z.add 0%Z
         (f <$> (filter (supplied_by vendor_id) (batch_collection db)
                   ≫= λ d, BatchAllocation.parts_manifest (fields d)))
       + if decide (supplied_by vendor_id d)
         then f (inc_failures_logged p) - f p else 0)%Z) as Hsum.
  { intros f. rewrite !sum_entries_by_batch.
    rewrite (sum_insert _ _ i d d' Hi). unfold supplied_by, d'. simpl.
    destruct (decide _); [|lia].
    rewrite (sum_insert f _ j p _ Hj). lia. }
  assert (length (filter (supplied_by vendor_id)
                    (<[i := d']> (batch_collection db)))
          = length (filter (supplied_by vendor_id) (batch_collection db)))
    as Hlen by (by apply (filter_insert_length _ _ i d d')).
  unfold totalSupplied, totalFailures, manifest_entries_of in *. simpl in *.
  rewrite Hlen. rewrite !Hsum in *. unfold supplied_by in *.
  destruct (decide _); simpl in *.
  - split_and!; [done | lia | lia | done].
  - rewrite !Z.add_0_r in *. congruence.
Qed.

(** X8. A batch logged by [add_batch] enters the analytics of a vendor
    that it names, as its [vendor_details.vendor_id] or in a list that it
    has there: its quantities are added to the parts supplied, its
    [failures_logged] as sent to the failures, and it counts as one more
    batch; the analytics of a vendor that the batch does not name so are
    what they were. *)
Theorem add_batch_then_analytics db batch id db' vendor_id a a' :
  run (add_batch batch) db
  = (inr (message_id_response "Batch Logged Successfully" id), db') →
  (run (get_vendor_analytics vendor_id) db).1 = inr (analytics_response a) →
  (run (get_vendor_analytics vendor_id) db').1 = inr (analytics_response a') →
  if decide (names_vendor vendor_id (BatchAllocation.vendor_details batch))
  then vendor_name a' = vendor_name a ∧
       total_parts_supplied a'
       = (total_parts_supplied a
          + foldr Z.add 0 (BatchPart.quantity
                             <$> BatchAllocation.parts_manifest batch))%Z ∧
       total_failures_detected a'
       = (total_failures_detected a
          + foldr Z.add 0 (BatchPart.failures_logged
                             <$> BatchAllocation.parts_manifest batch))%Z ∧
       batches_analyzed a' = S (batches_analyzed a)
  else a' = a.
Proof.
  simpl. destruct (find_one (has_batch_id _) _); [done|]. simpl.
  intros [= <- <-] Ha Ha'.
  apply analytics_of_registered in Ha as (dv & score & Hdv & Hscore & ->).
  apply analytics_of_registered in Ha' as (dv' & score' & Hdv' & Hscore' & ->).
  simpl in Hdv'. rewrite Hdv in Hdv'. injection Hdv' as <-.
  unfold totalSupplied, totalFailures, manifest_entries_of in *. simpl in *.
  rewrite !sum_entries_by_batch in *.
  rewrite !fmap_app, !foldr_Zadd_app, filter_app, length_app in *.
  rewrite filter_cons, filter_nil in *. simpl in *. unfold supplied_by in *.
  simpl in *. destruct (decide _); simpl in *.
  - split_and!; [done | lia | lia | lia].
  - rewrite !Z.add_0_r, ?Nat.add_0_r in *. congruence.
Qed.

(** ** Exact scores and the sign of the score *)

Section FloatExact.
Local Open Scope Z_scope.

Lemma div_eucl_div_mod a b : Z.div_eucl a b = (a / b, a mod b).
Proof. unfold Z.div, Z.modulo. by destruct (Z.div_eucl a b). Qed.

(** [n / n == 1.0] *)
Lemma nearest_ratio_self s n :
  nearest_ratio s n n = S754_finite s (2 ^ 52) (-52).
Proof.
  unfold nearest_ratio, SFdiv_core_binary. cbv zeta.
  replace (Zdigits2 (Z.pos n) + 0 - (Zdigits2 (Z.pos n) + 0)) with 0 by lia.
  change (Z.min (fexp prec emax 0) (0 - 0)) with (-53).
  change (0 - 0 - -53) with 53. cbv iota.
  rewrite Z.shiftl_mul_pow2 by lia.
  rewrite div_eucl_div_mod, Z.mul_comm, Z.div_mul, Z.mod_mul by lia.
  replace (new_location (Z.pos n) 0) with loc_Exact
    by (unfold new_location; by destruct (Z.even _)).
  by destruct s.
Qed.

Lemma int_true_divide_self n :
  0 < n → int_true_divide n n = PyOk (S754_finite false (2 ^ 52) (-52)).
Proof.
  intros Hn. destruct n as [|p|p]; [lia| |lia].
  unfold int_true_divide. simpl. by rewrite nearest_ratio_self.
Qed.

(** Rounding keeps the sign it is given. *)
Lemma binary_round_aux_sign sx mx ex lx :
  0 ≤ mx → sign_bit (binary_round_aux prec emax sx mx ex lx) = Some sx.
Proof.
  intros Hm. unfold binary_round_aux, shr_fexp, shr.
  assert (∀ m l, shr_m (shr_record_of_loc m l) = m) as Hrec
    by (by intros m [|[]]).
  assert (∀ m e l n, 0 ≤ m →
            0 ≤ shr_m (match n with
                       | Z.pos p =>
                           (SpecFloat.iter_pos shr_1 p (shr_record_of_loc m l),
                            e + n)
                       | _ => (shr_record_of_loc m l, e)
                       end).1) as Hshr.
  { intros m e l [|p|p] H0; simpl; rewrite ?Hrec; try done.
    apply iter_shr_1_digits. by rewrite Hrec. }
  pose proof (Hshr mx ex lx (fexp prec emax (Zdigits2 mx + ex) - ex) Hm) as H1.
  destruct (match fexp prec emax (Zdigits2 mx + ex) - ex with
            | Z.pos p => _ | _ => _ end) as [mrs' e'].
  simpl in H1.
  destruct (round_nearest_even_digits (shr_m mrs') (loc_of_shr_record mrs') H1)
    as [H2 _].
  pose proof (Hshr _ e' loc_Exact
                (fexp prec emax
                   (Zdigits2 (round_nearest_even (shr_m mrs')
                                (loc_of_shr_record mrs')) + e') - e') H2) as H3.
  destruct (match fexp prec emax _ - e' with
            | Z.pos p => _ | _ => _ end) as [mrs'' e''].
  simpl in H3. destruct (shr_m mrs''); [done| |lia].
  by destruct (_ <=? _).
Qed.

Lemma nearest_ratio_sign s n d : sign_bit (nearest_ratio s n d) = Some s.
Proof.
  unfold nearest_ratio, SFdiv_core_binary. cbv zeta.
  rewrite div_eucl_div_mod. apply binary_round_aux_sign.
  apply Z.div_pos; [|lia].
  destruct (0 - 0 - _) eqn:E; try lia.
  rewrite Z.shiftl_mul_pow2 by lia.
  apply Z.mul_nonneg_nonneg; [lia|]. apply Z.pow_nonneg. lia.
Qed.

Lemma round2_sign x : sign_bit (round2 x) = sign_bit x.
Proof.
  destruct x as [s|s| |s m e]; try done. unfold round2.
  destruct (match e with Z.neg p => _ | _ => _ end); try done.
  apply nearest_ratio_sign.
Qed.

Lemma float_mul_100_sign x :
  sign_bit x ≠ None →
  sign_bit (float_mul x (float_of_int 100)) = sign_bit x.
Proof.
  destruct x as [s|s| |s m e]; intros Hx; try done.
  - simpl. by destruct s.
  - simpl. by destruct s.
  - change (float_mul (S754_finite s m e) (float_of_int 100))
      with (binary_round_aux prec emax (xorb s false)
              (Z.pos (m * 7036874417766400)) (e + -46) loc_Exact).
    rewrite binary_round_aux_sign by lia. simpl. by destruct s.
Qed.

End FloatExact.

Lemma int_true_divide_sign a b q :
  int_true_divide a b = PyOk q →
  sign_bit q = Some (xorb (a <? 0)%Z (b <? 0)%Z).
Proof.
  unfold int_true_divide. destruct b as [|pb|pb]; [done|..]; cbv zeta;
    set (s := xorb _ _); clearbody s; cbv iota;
    (destruct (Z.abs a) as [|n|n];
     [ by intros [= <-]
     | pose proof (nearest_ratio_sign s n (Z.to_pos (Z.abs (Z.pos pb)))) as H1;
       pose proof (nearest_ratio_sign s n (Z.to_pos (Z.abs (Z.neg pb)))) as H2;
       destruct (nearest_ratio _ _ _); intros [= <-]; done
     | by intros [= <-] ]).
Qed.

(** X9. Whenever [get_vendor_analytics] reports a positive number of
    parts supplied: with no failure detected the score is exactly 100.0,
    and with as many failures as parts it is exactly 0.0. *)
Theorem score_of_spotless_and_of_failed_supply db vendor_id a :
  (run (get_vendor_analytics vendor_id) db).1 = inr (analytics_response a) →
  (0 < total_parts_supplied a)%Z →
  (total_failures_detected a = 0%Z →
   calculated_durability_score a = S754_finite false (100 * 2 ^ 46) (-46)) ∧
  (total_failures_detected a = total_parts_supplied a →
   calculated_durability_score a = S754_zero false).
Proof.
  intros (d & score & _ & Hscore & ->)%analytics_of_registered. simpl.
  intros HS. unfold durability_score_of in Hscore.
  apply Z.ltb_lt in HS as HS'. rewrite HS' in Hscore. split.
  - intros HF. rewrite HF, Z.sub_0_r, int_true_divide_self in Hscore by done.
    injection Hscore as <-. by vm_compute.
  - intros HF. rewrite HF, Z.sub_diag in Hscore.
    destruct (totalSupplied vendor_id db); [lia| |lia].
    injection Hscore as <-. by vm_compute.
Qed.

(** X10. The score is not clamped: whenever [get_vendor_analytics]
    reports more failures than parts supplied, the parts being positive
    in number, the score it reports has its sign bit set: it is negative
    or minus zero. *)
Theorem score_is_not_clamped db vendor_id a :
  (run (get_vendor_analytics vendor_id) db).1 = inr (analytics_response a) →
  (0 < total_parts_supplied a < total_failures_detected a)%Z →
  sign_bit (calculated_durability_score a) = Some true.
Proof.
  intros (d & score & _ & Hscore & ->)%analytics_of_registered. simpl.
  intros [HS HF]. unfold durability_score_of in Hscore.
  apply Z.ltb_lt in HS as HS'. rewrite HS' in Hscore.
  destruct (int_true_divide _ _) as [q| |] eqn:Hq; [|done..].
  injection Hscore as <-.
  apply int_true_divide_sign in Hq.
  rewrite round2_sign, float_mul_100_sign, Hq by (by rewrite Hq).
  f_equal. rewrite (proj2 (Z.ltb_lt _ 0)), (proj2 (Z.ltb_ge _ 0)) by lia. done.
Qed.

(** ** What no interleaving of database calls can do *)

Lemma await_step_registries {A} (c c' : coroutine A) db db' :
  await_step c db = Some (c', db') →
  (∃ l, vendor_collection db' = vendor_collection db ++ l) ∧
  (∃ l, admin_collection db' = admin_collection db ++ l).
Proof.
  intros Hstep.
  destruct c; simplify_eq/=;
    split; first [by exists []; rewrite app_nil_r | by eexists].
Qed.

(** X11. Whatever coroutines are in flight and in whatever order their
    database calls are executed, the vendor registry and the service
    centers only get new documents at the end: no stored vendor (its
    [durability_score] included) and no stored center (its [bookings]
    included) is ever changed, moved or removed. *)
Theorem registries_are_append_only (pool : list (coroutine Response)) s db :
  (∃ l, vendor_collection (schedule s (pool, db)).2
        = vendor_collection db ++ l) ∧
  (∃ l, admin_collection (schedule s (pool, db)).2
        = admin_collection db ++ l).
Proof.
  revert pool db. induction s as [|k s IH]; intros pool db.
  - split; exists []; by rewrite app_nil_r.
  - unfold schedule. simpl. fold (schedule s (pool_step k (pool, db))).
    assert ((∃ l, vendor_collection (pool_step k (pool, db)).2
                  = vendor_collection db ++ l) ∧
            (∃ l, admin_collection (pool_step k (pool, db)).2
                  = admin_collection db ++ l)) as [[l1 H1] [l2 H2]].
    { unfold pool_step. simpl.
      destruct (pool !! k) as [c|];
        [|split; exists []; by rewrite app_nil_r].
      destruct (await_step c db) as [[c' db']|] eqn:E;
        [|split; exists []; by rewrite app_nil_r].
      simpl. by eapply await_step_registries. }
    destruct (pool_step k (pool, db)) as [pool1 db1]. simpl in *.
    destruct (IH pool1 db1) as [[l1' H1'] [l2' H2']].
    split; eexists; [rewrite H1', H1 | rewrite H2', H2];
      by rewrite <- app_assoc.
Qed.

Lemma entry_grows_refl p : entry_grows p p.
Proof. unfold entry_grows. split_and!; [done..|lia]. Qed.

Lemma batch_grows_refl d : batch_grows d d.
Proof.
  unfold batch_grows. split_and!; [done..|].
  apply Forall_Forall2_diag, Forall_forall. intros p _. apply entry_grows_refl.
Qed.

Lemma ledger_grows_refl l : ledger_grows l l.
Proof.
  exists l, []. split; [by rewrite app_nil_r|].
  apply Forall_Forall2_diag, Forall_forall. intros d _. apply batch_grows_refl.
Qed.

Lemma entry_grows_trans p1 p2 p3 :
  entry_grows p1 p2 → entry_grows p2 p3 → entry_grows p1 p3.
Proof. unfold entry_grows. intros (?&?&?&?) (?&?&?&?). split_and!; [congruence..|lia]. Qed.

Lemma Forall2_trans' {A} (R : A → A → Prop) :
  (∀ x y z, R x y → R y z → R x z) →
  ∀ l1 l2 l3, Forall2 R l1 l2 → Forall2 R l2 l3 → Forall2 R l1 l3.
Proof.
  intros HR l1 l2 l3 H12. revert l3.
  induction H12; intros l3 H23; inversion H23; subst; constructor; eauto.
Qed.

Lemma batch_grows_trans d1 d2 d3 :
  batch_grows d1 d2 → batch_grows d2 d3 → batch_grows d1 d3.
Proof.
  unfold batch_grows. intros (?&?&?&?&?&H12) (?&?&?&?&?&H23).
  split_and!; [congruence..|].
  eapply Forall2_trans'; [apply entry_grows_trans|done..].
Qed.

Lemma ledger_grows_trans l1 l2 l3 :
  ledger_grows l1 l2 → ledger_grows l2 l3 → ledger_grows l1 l3.
Proof.
  intros (k1 & n1 & -> & H1) (k2 & n2 & -> & H2).
  apply Forall2_app_inv_l in H2 as (k2a & k2b & H2a & H2b & ->).
  exists k2a, (k2b ++ n2). split; [by rewrite app_assoc|].
  eapply Forall2_trans'; [apply batch_grows_trans|done..].
Qed.

Lemma update_one_inc_grows batch_id part_sku collection :
  ledger_grows collection (update_one_inc batch_id part_sku collection).2.
Proof.
  destruct (list_find (has_batch_id_and_sku batch_id part_sku) collection)
    as [[i d]|] eqn:E.
  2: { rewrite update_one_inc_unmatched by done. apply ledger_grows_refl. }
  destruct (update_one_inc_matched _ _ _ _ _ E) as (j & p & Hjp & ->). simpl.
  apply list_find_Some in E as (Hi & _ & _).
  apply list_find_Some in Hjp as (Hj & _ & _).
  eexists _, []. split; [by rewrite app_nil_r|].
  eapply Forall2_insert_right; [|done|].
  - apply Forall_Forall2_diag, Forall_forall. intros ? _. apply batch_grows_refl.
  - unfold batch_grows. simpl. split_and!; [done..|].
    eapply Forall2_insert_right; [|done|].
    + apply Forall_Forall2_diag, Forall_forall.
      intros ? _. apply entry_grows_refl.
    + unfold entry_grows. simpl. split_and!; [done..|lia].
Qed.

Lemma await_step_ledger_grows {A} (c c' : coroutine A) db db' :
  await_step c db = Some (c', db') →
  ledger_grows (batch_collection db) (batch_collection db').
Proof.
  intros Hstep.
  destruct c; simplify_eq/=; try apply ledger_grows_refl.
  - eexists _, _. split; [done|].
    apply Forall_Forall2_diag, Forall_forall. intros ? _. apply batch_grows_refl.
  - apply update_one_inc_grows.
Qed.

(** X12. Whatever coroutines are in flight and in whatever order their
    database calls are executed, the batch ledger afterwards is the
    ledger before, batch by batch and entry by entry, with the same ids,
    details, SKUs, names and quantities and with [failures_logged] at
    least what it was, followed by the batches logged meanwhile. *)
Theorem ledger_only_grows (pool : list (coroutine Response)) s db :
  ledger_grows (batch_collection db) (batch_collection (schedule s (pool, db)).2).
Proof.
  revert pool db. induction s as [|k s IH]; intros pool db.
  - apply ledger_grows_refl.
  - unfold schedule. simpl. fold (schedule s (pool_step k (pool, db))).
    assert (ledger_grows (batch_collection db)
              (batch_collection (pool_step k (pool, db)).2)) as H1.
    { unfold pool_step. simpl.
      destruct (pool !! k) as [c|]; [|apply ledger_grows_refl].
      destruct (await_step c db) as [[c' db']|] eqn:E;
        [|apply ledger_grows_refl].
      simpl. by eapply await_step_ledger_grows. }
    destruct (pool_step k (pool, db)) as [pool1 db1]. simpl in *.
    eapply ledger_grows_trans; [exact H1 | apply IH].
Qed.

(** ** What an interleaving can do: the check and the insert are two calls *)

(** X13. When two [register_vendor] requests for one unregistered
    [vendor_id] are in flight and both look the id up before either
    inserts, both answer "Vendor Registered" and the registry ends with
    two records under that id. *)
Theorem concurrent_register_vendor_duplicates db v1 v2 :
  Vendor.vendor_id v2 = Vendor.vendor_id v1 →
  (∀ d, d ∈ vendor_collection db →
        Vendor.vendor_id (fields d) ≠ Vendor.vendor_id v1) →
  let oid1 := {| oid_seq := next_oid db |} in
  let oid2 := {| oid_seq := S (next_oid db) |} in
  let st := schedule [0; 1; 0; 1] ([register_vendor v1; register_vendor v2], db) in
  st.1 = [ Return (message_id_response "Vendor Registered" (ObjectId_str oid1));
           Return (message_id_response "Vendor Registered" (ObjectId_str oid2)) ] ∧
  vendor_collection st.2
  = vendor_collection db ++ [ {| _id := IdObject oid1; fields := v1 |};
                              {| _id := IdObject oid2; fields := v2 |} ] ∧
  length (filter (has_vendor_id (Vendor.vendor_id v1)) (vendor_collection st.2))
  = 2.
Proof.
  intros Hid Hfresh oid1 oid2 st. subst st.
  assert (find_one (has_vendor_id (Vendor.vendor_id v1)) (vendor_collection db)
          = None) as Hnone by (by apply find_one_None).
  unfold schedule, pool_step. simpl. rewrite Hid, Hnone. simpl.
  split_and!; [done | by rewrite <- app_assoc |].
  rewrite !filter_app, !length_app.
  rewrite (filter_none _ (vendor_collection db)) by done.
  rewrite !filter_cons, !decide_True by done. done.
Qed.

(** X14. Likewise for two [add_batch] requests for one unused
    [batch_allocation_id] that both look the id up before either
    inserts: neither is answered "Batch ID already exists", and when
    both are answered, which is when both insertions went through, the
    answers are two new identifiers and the ledger ends with the two
    batches under that id. *)
Theorem concurrent_add_batch_duplicates db b1 b2 :
  BatchAllocation.batch_allocation_id b2 = BatchAllocation.batch_allocation_id b1 →
  (∀ d, d ∈ batch_collection db →
        BatchAllocation.batch_allocation_id (fields d)
        ≠ BatchAllocation.batch_allocation_id b1) →
  let st := schedule [0; 1; 0; 1] ([add_batch b1; add_batch b2], db) in
  Forall (λ c, c ≠ Raise (HTTPException 400 "Batch ID already exists")) st.1 ∧
  (Forall succeeded st.1 →
   ∃ oid1 oid2,
     st.1 = [ Return (message_id_response "Batch Logged Successfully"
                        (ObjectId_str oid1));
              Return (message_id_response "Batch Logged Successfully"
                        (ObjectId_str oid2)) ] ∧
     oid1 ≠ oid2 ∧
     batch_collection st.2
     = batch_collection db ++ [ {| _id := IdObject oid1; fields := b1 |};
                                {| _id := IdObject oid2; fields := b2 |} ] ∧
     length (filter (has_batch_id (BatchAllocation.batch_allocation_id b1))
               (batch_collection st.2))
     = 2).
Proof.
  intros Hid Hfresh st. subst st.
  assert (find_one (has_batch_id (BatchAllocation.batch_allocation_id b1))
            (batch_collection db) = None) as Hnone by (by apply find_one_None).
  unfold schedule, pool_step. simpl. rewrite Hid, Hnone. simpl.
  split; [by repeat constructor|]. intros _.
  exists {| oid_seq := next_oid db |}, {| oid_seq := S (next_oid db) |}.
  split_and!; [done | | by rewrite <- app_assoc |].
  - intros [= Hoid]. lia.
  - rewrite !filter_app, !length_app.
    rewrite (filter_none _ (batch_collection db)) by done.
    rewrite !filter_cons, !decide_True by done. done.
Qed.

(** C7, at the input that breaks it.  Two [register_vendor] requests for
    one unregistered [vendor_id] are in flight and both look the id up
    before either inserts: both are answered.  A third registration of
    that id then raises 400 "Vendor ID already exists" and changes
    nothing, and the registry holds two records under the id, not
    one. *)
Theorem register_vendor_duplicate_after_race db v1 v2 v3 :
  Vendor.vendor_id v2 = Vendor.vendor_id v1 →
  Vendor.vendor_id v3 = Vendor.vendor_id v1 →
  (∀ d, d ∈ vendor_collection db →
        Vendor.vendor_id (fields d) ≠ Vendor.vendor_id v1) →
  let st := schedule [0; 1; 0; 1] ([register_vendor v1; register_vendor v2], db) in
  Forall succeeded st.1 ∧
  run (register_vendor v3) st.2
  = (inl (HTTPException 400 "Vendor ID already exists"), st.2) ∧
  length (filter (has_vendor_id (Vendor.vendor_id v3)) (vendor_collection st.2))
  = 2.
Proof.
  intros Hid2 Hid3 Hfresh st. subst st.
  assert (find_one (has_vendor_id (Vendor.vendor_id v1)) (vendor_collection db)
          = None) as Hnone by (by apply find_one_None).
  unfold schedule, pool_step. simpl. rewrite Hid2, Hid3, Hnone. simpl.
  split_and!; [by repeat constructor | |].
  - match goal with |- context [find_one ?P ?l] =>
      destruct (find_one P l) as [d|] eqn:E end; [done|].
    rewrite find_one_None in E.
    destruct (E {| _id := IdObject {| oid_seq := next_oid db |}; fields := v1 |}).
    + apply elem_of_app. left. apply elem_of_app. right. by left.
    + done.
  - rewrite !filter_app, !length_app.
    rewrite (filter_none _ (vendor_collection db)) by done.
    rewrite !filter_cons, !decide_True by done. done.
Qed.

(** ** The three outcomes of the failure recorder *)


(** ** Requests that leave no trace *)

(** X16. Every GET route of the two applications leaves the database as
    it found it, whatever it answers. *)
Theorem get_routes_change_nothing r db : is_get r → serve db r = db.
Proof.
  destruct r; try done; intros _; unfold serve; simpl; try done;
    try (by destruct (find_one _ _)).
  destruct (find_one _ _); [|done]. simpl.
  by destruct (durability_score_of _ _).
Qed.

(** X17. A request that ends in an exception, on any route, leaves the
    database as it found it: a refused registration, an unknown batch,
    vendor or center, an unmatched SKU, a score out of range. *)
Theorem failed_requests_change_nothing r db e :
  (run (handler r) db).1 = inl e → serve db r = db.
Proof.
  intros Hfail.
  destruct r; unfold serve in *;
    try (simpl in *; first [done | by destruct (find_one _ _)]).
  2: { simpl in *. destruct (find_one _ _); [|done]. simpl in *.
       by destruct (durability_score_of _ _). }
  unfold handler in *. rewrite run_report_failure in *.
  destruct (find_one _ _); [|done].
  destruct (list_find (has_batch_id_and_sku batch_id part_sku)
              (batch_collection db)) as [[i d']|] eqn:E.
  - destruct (update_one_inc_matched _ _ _ _ _ E) as (j & p & _ & Hupd).
    unfold batch_update_inc in Hfail. rewrite Hupd in Hfail. done.
  - unfold batch_update_inc. rewrite (update_one_inc_unmatched _ _ _ E).
    simpl. by destruct db.
Qed.

End Store.

(** * Closed instances *)

(** ** Python arithmetic on sample values *)

Example int_true_divide_two_thirds :
  int_true_divide 2 3 = PyOk (S754_finite false 6004799503160661 (-53)).
Proof. vm_compute. reflexivity. Qed.

Example int_true_divide_negative_zero :
  int_true_divide 0 (-5) = PyOk (S754_zero true).
Proof. reflexivity. Qed.

Example int_true_divide_by_zero : int_true_divide 1 0 = PyZeroDivisionError.
Proof. reflexivity. Qed.

Example int_true_divide_too_large :
  int_true_divide (2 ^ 1024) 1 = PyOverflowError.
Proof. vm_compute. reflexivity. Qed.

(** [round(2.675, 2) == 2.67]: the binary64 number written 2.675 lies
    below 2.675. *)
Example round2_2_675 :
  round2 (S754_finite false 6023564501608038 (-51))
  = S754_finite false 6012305502539612 (-51).
Proof. vm_compute. reflexivity. Qed.

(** [round(0.125, 2) == 0.12] and [round(0.375, 2) == 0.38]: exact ties
    go to the even hundredth. *)
Example round2_ties_to_even :
  round2 (S754_finite false 4503599627370496 (-55))
  = S754_finite false 8646911284551352 (-56) ∧
  round2 (S754_finite false 6755399441055744 (-54))
  = S754_finite false 6845471433603154 (-54).
Proof. split; vm_compute; reflexivity. Qed.

(** [round(((3 - 1) / 3) * 100, 2) == 66.67] *)
Example score_two_of_three :
  match durability_score_of 3 1 with
  | PyOk score => round2 score = S754_finite false 4691484174324859 (-46)
  | _ => False
  end.
Proof. vm_compute. reflexivity. Qed.

(** [round(((10**6 - (10**6 + 1)) / 10**6) * 100, 2) == -0.0] *)
Example score_negative_zero :
  match durability_score_of 1000000 1000001 with
  | PyOk score => round2 score = S754_zero true
  | _ => False
  end.
Proof. vm_compute. reflexivity. Qed.

(** The ledger with the negative quantity is what three requests leave
    behind. *)
Lemma returned_goods_reachable :
  session literal_search empty_db
    [ POST_register_vendor denso;
      POST_add_batch (spark_plugs (-5));
      POST_report_failure "TOYOTA_202403A001" "90919-01191" ]
  = ([ inr (message_id_response "Vendor Registered" "000000000000000000000000");
       inr (message_id_response "Batch Logged Successfully"
              "000000000000000000000001");
       inr failure_logged ],
     toyota_db returned_goods).
Proof. vm_compute. reflexivity. Qed.

(** C1 as stated fails twice.  On the returned goods V-DENSO-09 is
    registered and [totalSupplied = -5] is not zero: the stated rule
    gives 120.0, the response carries 100.0.  On the batch logged with a
    list of vendor ids no batch has a [vendor_details.vendor_id] equal to
    V-DENSO-09, so the stated totals are 0 and the stated score 100.0:
    the response counts the batch and carries 100 parts, 1 failure and
    99.0. *)
Lemma negative_supply_counterexample :
  ((∃ d, d ∈ vendor_collection (toyota_db returned_goods) ∧
         Vendor.vendor_id (fields d) = "V-DENSO-09") ∧
   stated_totalSupplied "V-DENSO-09" (toyota_db returned_goods) = (-5)%Z ∧
   stated_totalFailures "V-DENSO-09" (toyota_db returned_goods) = 1%Z ∧
   stated_score (-5) 1 = PyOk (S754_finite false (120 * 2 ^ 46) (-46)) ∧
   (run literal_search (get_vendor_analytics "V-DENSO-09")
      (toyota_db returned_goods)).1
   = inr (analytics_response
            {| vendor_name := "Denso Corporation";
               calculated_durability_score :=
                 S754_finite false (100 * 2 ^ 46) (-46);
               total_parts_supplied := -5;
               total_failures_detected := 1;
               batches_analyzed := 1 |}) ∧
   ¬ score_as_stated "V-DENSO-09" (toyota_db returned_goods)
       (run literal_search (get_vendor_analytics "V-DENSO-09")
          (toyota_db returned_goods)).1) ∧
  ((∃ d, d ∈ vendor_collection shared_batch_db ∧
         Vendor.vendor_id (fields d) = "V-DENSO-09") ∧
   (∀ d, d ∈ batch_collection shared_batch_db →
         BatchAllocation.vendor_details (fields d) !! "vendor_id"
         ≠ Some (JStr "V-DENSO-09")) ∧
   stated_totalSupplied "V-DENSO-09" shared_batch_db = 0%Z ∧
   stated_totalFailures "V-DENSO-09" shared_batch_db = 0%Z ∧
   stated_score 0 0 = PyOk (S754_finite false (100 * 2 ^ 46) (-46)) ∧
   (run literal_search (get_vendor_analytics "V-DENSO-09") shared_batch_db).1
   = inr (analytics_response
            {| vendor_name := "Denso Corporation";
               calculated_durability_score :=
                 S754_finite false (99 * 2 ^ 46) (-46);
               total_parts_supplied := 100;
               total_failures_detected := 1;
               batches_analyzed := 1 |}) ∧
   ¬ score_as_stated "V-DENSO-09" shared_batch_db
       (run literal_search (get_vendor_analytics "V-DENSO-09")
          shared_batch_db).1).
Proof.
  split; split_and!.
  - exists denso_doc. split; [by left | done].
  - by vm_compute.
  - by vm_compute.
  - by vm_compute.
  - by vm_compute.
  - intros (a & Ha & _ & _ & Hscore).
    vm_compute in Ha. injection Ha as <-.
    vm_compute in Hscore. discriminate Hscore.
  - exists denso_doc. split; [by left | done].
  - intros d Hd. apply list_elem_of_singleton in Hd. subst d.
    vm_compute. discriminate.
  - by vm_compute.
  - by vm_compute.
  - by vm_compute.
  - by vm_compute.
  - intros (a & Ha & Hs & _).
    vm_compute in Ha. injection Ha as <-.
    vm_compute in Hs. discriminate Hs.
Qed.

Lemma report_failure_unknown_batch_witness :
  (∀ d, d ∈ batch_collection (toyota_db two_listings) →
        ¬ has_batch_id "NISSAN_202403B007" d) ∧
  run literal_search (report_failure "NISSAN_202403B007" "90919-01191")
    (toyota_db two_listings)
  = (inl (HTTPException 404 "Batch not found"), toyota_db two_listings).
Proof.
  assert (∀ d, d ∈ batch_collection (toyota_db two_listings) →
               ¬ has_batch_id "NISSAN_202403B007" d) as H.
  { apply Forall_forall. repeat constructor. by vm_compute. }
  split; [exact H|].
  exact (report_failure_unknown_batch literal_search
           "NISSAN_202403B007" "90919-01191" (toyota_db two_listings) H).
Defined.

Lemma report_failure_unknown_sku_witness :
  run literal_search (report_failure "TOYOTA_202403A001" "00000-00000")
    (toyota_db two_listings)
  = (inl (HTTPException 400 "Part SKU not found in this batch"),
     toyota_db two_listings).
Proof.
  apply (report_failure_unknown_sku literal_search
           "TOYOTA_202403A001" "00000-00000" (toyota_db two_listings)).
  - exists (toyota_doc two_listings). split; [by left | reflexivity].
  - intros d Hd _. apply list_elem_of_singleton in Hd. subst d.
    repeat constructor; by vm_compute.
Defined.

Lemma report_failure_frame_witness :
  ∃ db',
    run literal_search (report_failure "TOYOTA_202403A001" "04152-YZZA1")
      (toyota_db two_listings) = (inr failure_logged, db') ∧
    vendor_collection db' = [denso_doc].
Proof.
  destruct (report_failure_frame literal_search
              "TOYOTA_202403A001" "04152-YZZA1" (toyota_db two_listings)
              (toyota_doc two_listings))
    as (i & j & d0 & p0 & d1 & p1 & db' & Hrun & H); [..|].
  - by left.
  - reflexivity.
  - apply Exists_cons_hd. reflexivity.
  - exists db'. split; [exact Hrun|]. apply H.
Defined.

Lemma report_failure_first_duplicate_witness :
  ∃ d' p1' db',
    run literal_search (report_failure "TOYOTA_202403A001" "90919-01191")
      (toyota_db two_listings) = (inr failure_logged, db') ∧
    batch_collection db' !! 0 = Some d' ∧
    BatchAllocation.parts_manifest (fields d') !! 1 = Some p1' ∧
    BatchPart.failures_logged p1' = 2%Z ∧
    BatchAllocation.parts_manifest (fields d') !! 2 = Some spark_plug_again.
Proof.
  destruct (report_failure_first_duplicate literal_search
              "TOYOTA_202403A001" "90919-01191" (toyota_db two_listings)
              0 (toyota_doc two_listings) 1 2 spark_plug spark_plug_again)
    as (d' & p1' & db' & Hrun & Hd' & H1 & Hf & H2 & _);
    try reflexivity.
  - lia.
  - intros [|j] p Hlt Hj; [|lia]. injection Hj as <-. by vm_compute.
  - exists d', p1', db'. split_and!; done.
Defined.

Lemma failures_logged_monotone_witness :
  ∃ d' p',
    batch_collection
      (serve literal_search (toyota_db two_listings)
         (POST_report_failure "TOYOTA_202403A001" "90919-01191")) !! 0
    = Some d' ∧
    BatchAllocation.parts_manifest (fields d') !! 2 = Some p' ∧
    (BatchPart.failures_logged spark_plug_again ≤ BatchPart.failures_logged p')%Z.
Proof.
  destruct (failures_logged_monotone literal_search
              (POST_report_failure "TOYOTA_202403A001" "90919-01191")
              (toyota_db two_listings) 0 (toyota_doc two_listings)
              2 spark_plug_again)
    as (d' & p' & Hd' & Hp' & _ & _ & _ & Hle & _); try reflexivity.
  by exists d', p'.
Defined.

Lemma register_vendor_duplicate_key_witness :
  reachable literal_search
    (serve literal_search empty_db (POST_register_vendor denso)) ∧
  run literal_search (register_vendor denso)
    (serve literal_search empty_db (POST_register_vendor denso))
  = (inl (HTTPException 400 "Vendor ID already exists"),
     serve literal_search empty_db (POST_register_vendor denso)).
Proof.
  assert (reachable literal_search
            (serve literal_search empty_db (POST_register_vendor denso))) as H.
  { apply reachable_serve, reachable_empty. }
  split; [exact H|].
  destruct (register_vendor_duplicate_key literal_search _
              "V-DENSO-09" "Denso Corporation" "Electronics"
              "denso@example.com" None H) as (Hiff & Hdup & _).
  apply injective_projections; [reflexivity|].
  apply Hdup. reflexivity.
Defined.

Lemma vendor_analytics_score_witness :
  run literal_search (get_vendor_analytics "V-DENSO-09") shared_batch_db
  = (inr (analytics_response
            {| vendor_name := "Denso Corporation";
               calculated_durability_score :=
                 S754_finite false (99 * 2 ^ 46) (-46);
               total_parts_supplied := 100;
               total_failures_detected := 1;
               batches_analyzed := 1 |}),
     shared_batch_db).
Proof.
  destruct (vendor_analytics_score literal_search shared_batch_db "V-DENSO-09")
    as (d & score & Hd & Hid & Hrun & _ & Hpos & _).
  - exists denso_doc. split; [by left | reflexivity].
  - by vm_compute.
  - apply list_elem_of_singleton in Hd. subst d.
    destruct Hpos as (q & Hq & ->); [by vm_compute|].
    vm_compute in Hq. injection Hq as <-.
    rewrite Hrun. vm_compute. reflexivity.
Defined.

Lemma concurrent_report_failures_witness :
  let st :=
    schedule literal_search [0; 1; 2; 1; 0; 2; 2]
      (handler <$> [ POST_report_failure "TOYOTA_202403A001" "90919-01191";
                     POST_report_failure "TOYOTA_202403A001" "90919-01191";
                     GET_vendor_analytics "V-DENSO-09" ],
       toyota_db two_listings) in
  ∃ d' p',
    batch_collection st.2 !! 0 = Some d' ∧
    BatchAllocation.parts_manifest (fields d') !! 1 = Some p' ∧
    BatchPart.failures_logged p' = 3%Z.
Proof.
  intros st.
  destruct (concurrent_report_failures literal_search
              [ POST_report_failure "TOYOTA_202403A001" "90919-01191";
                POST_report_failure "TOYOTA_202403A001" "90919-01191";
                GET_vendor_analytics "V-DENSO-09" ]
              [0; 1; 2; 1; 0; 2; 2] (toyota_db two_listings)
              "TOYOTA_202403A001" "90919-01191"
              0 (toyota_doc two_listings) 1 spark_plug)
    as (d' & p' & Hd' & _ & Hp' & _ & _ & _ & Hf & _); try reflexivity.
  exists d', p'. split_and!; [exact Hd' | exact Hp' | exact Hf].
Defined.

(** ** Closed instances of the further properties *)

Lemma reachable_keys_unique_witness :
  NoDup ((λ d, BatchAllocation.batch_allocation_id (fields d))
           <$> batch_collection
                 (serve literal_search
                    (serve literal_search empty_db (POST_register_vendor denso))
                    (POST_add_batch (spark_plugs 100)))).
Proof.
  apply (reachable_keys_unique literal_search).
  apply reachable_serve, reachable_serve, reachable_empty.
Defined.

Lemma add_batch_duplicate_key_witness :
  (run literal_search (add_batch (spark_plugs 7))
     (serve literal_search empty_db (POST_add_batch (spark_plugs 100)))).2
  = serve literal_search empty_db (POST_add_batch (spark_plugs 100)).
Proof.
  destruct (add_batch_duplicate_key literal_search
              (serve literal_search empty_db (POST_add_batch (spark_plugs 100)))
              (spark_plugs 7)) as (_ & Hsame & _).
  - apply reachable_serve, reachable_empty.
  - apply Hsame. reflexivity.
Defined.

Lemma register_center_duplicate_key_witness :
  (run literal_search (register_center_of (inr delhi_hub_admin))
     (serve literal_search empty_db (POST_register_center delhi_hub))).2
  = serve literal_search empty_db (POST_register_center delhi_hub).
Proof.
  destruct (register_center_duplicate_key literal_search
              (serve literal_search empty_db (POST_register_center delhi_hub))
              (inr delhi_hub_admin)) as (_ & Hsame & _).
  - apply reachable_serve, reachable_empty.
  - apply Hsame. reflexivity.
Defined.

Lemma register_then_get_center_witness :
  run literal_search (get_center_details "SC-DEL-01")
    (serve literal_search empty_db (POST_register_center delhi_hub))
  = (inr (center_response
            {| _id := IdStr "000000000000000000000000";
               fields := inl delhi_hub |}),
     serve literal_search empty_db (POST_register_center delhi_hub)).
Proof.
  apply (register_then_get_center literal_search empty_db (inl delhi_hub)
           "000000000000000000000000"
           (serve literal_search empty_db (POST_register_center delhi_hub))).
  reflexivity.
Defined.

Lemma report_failure_then_analytics_witness :
  ∃ a a',
    (run literal_search (get_vendor_analytics "V-DENSO-09")
       (toyota_db two_listings)).1 = inr (analytics_response a) ∧
    (run literal_search (get_vendor_analytics "V-DENSO-09")
       (serve literal_search (toyota_db two_listings)
          (POST_report_failure "TOYOTA_202403A001" "04152-YZZA1"))).1
    = inr (analytics_response a') ∧
    total_parts_supplied a' = total_parts_supplied a ∧
    total_failures_detected a' = (total_failures_detected a + 1)%Z.
Proof.
  eexists _, _. split; [vm_compute; reflexivity|].
  split; [vm_compute; reflexivity|].
  edestruct (report_failure_then_analytics literal_search
               (toyota_db two_listings) "TOYOTA_202403A001" "04152-YZZA1"
               (serve literal_search (toyota_db two_listings)
                  (POST_report_failure "TOYOTA_202403A001" "04152-YZZA1"))
               "V-DENSO-09") as (i & d & Hfind & H);
    [reflexivity | vm_compute; reflexivity | vm_compute; reflexivity |].
  vm_compute in Hfind. injection Hfind as <- <-.
  rewrite decide_True in H by reflexivity.
  destruct H as (_ & HS & HF & _). split; [exact HS | exact HF].
Defined.

Lemma add_batch_then_analytics_witness :
  ∃ a a',
    (run literal_search (get_vendor_analytics "V-DENSO-09")
       (serve literal_search empty_db (POST_register_vendor denso))).1
    = inr (analytics_response a) ∧
    (run literal_search (get_vendor_analytics "V-DENSO-09")
       (serve literal_search
          (serve literal_search empty_db (POST_register_vendor denso))
          (POST_add_batch (fields shared_batch_doc)))).1
    = inr (analytics_response a') ∧
    total_parts_supplied a' = (total_parts_supplied a + 100)%Z ∧
    total_failures_detected a' = (total_failures_detected a + 1)%Z ∧
    batches_analyzed a' = S (batches_analyzed a).
Proof.
  eexists _, _. split; [vm_compute; reflexivity|].
  split; [vm_compute; reflexivity|].
  epose proof (add_batch_then_analytics literal_search
                 (serve literal_search empty_db (POST_register_vendor denso))
                 (fields shared_batch_doc) "000000000000000000000001"
                 (serve literal_search
                    (serve literal_search empty_db (POST_register_vendor denso))
                    (POST_add_batch (fields shared_batch_doc)))
                 "V-DENSO-09" _ _ eq_refl) as H.
  rewrite decide_True in H
    by (apply Exists_cons_tl, Exists_cons_hd; reflexivity).
  destruct H as (_ & HS & HF & Hn);
    [vm_compute; reflexivity | vm_compute; reflexivity |].
  split_and!; [exact HS | exact HF | exact Hn].
Defined.

Lemma score_of_spotless_and_of_failed_supply_witness :
  ∃ a,
    (run literal_search (get_vendor_analytics "V-DENSO-09")
       (toyota_db [oil_filter])).1 = inr (analytics_response a) ∧
    calculated_durability_score a = S754_finite false (100 * 2 ^ 46) (-46).
Proof.
  eexists. split; [vm_compute; reflexivity|].
  eapply (score_of_spotless_and_of_failed_supply literal_search
            (toyota_db [oil_filter]) "V-DENSO-09");
    [vm_compute; reflexivity | by vm_compute | reflexivity].
Defined.

Lemma score_is_not_clamped_witness :
  ∃ a,
    (run literal_search (get_vendor_analytics "V-DENSO-09")
       (toyota_db overcharged)).1 = inr (analytics_response a) ∧
    sign_bit (calculated_durability_score a) = Some true.
Proof.
  eexists. split; [vm_compute; reflexivity|].
  eapply (score_is_not_clamped literal_search (toyota_db overcharged)
            "V-DENSO-09");
    [vm_compute; reflexivity | by vm_compute].
Defined.

Lemma concurrent_register_vendor_duplicates_witness :
  length (filter (has_vendor_id "V-DENSO-09")
            (vendor_collection
               (schedule literal_search [0; 1; 0; 1]
                  ([register_vendor denso; register_vendor denso], empty_db)).2))
  = 2.
Proof.
  apply (concurrent_register_vendor_duplicates literal_search empty_db
           denso denso).
  - reflexivity.
  - intros d Hd. by apply elem_of_nil in Hd.
Defined.

Lemma concurrent_add_batch_duplicates_witness :
  length (filter (has_batch_id "TOYOTA_202403A001")
            (batch_collection
               (schedule literal_search [0; 1; 0; 1]
                  ([add_batch (spark_plugs 100); add_batch (spark_plugs 7)],
                   empty_db)).2))
  = 2.
Proof.
  destruct (concurrent_add_batch_duplicates literal_search empty_db
              (spark_plugs 100) (spark_plugs 7)) as [_ Hboth].
  - reflexivity.
  - intros d Hd. by apply elem_of_nil in Hd.
  - destruct Hboth as (oid1 & oid2 & _ & _ & _ & Hlen).
    + vm_compute. repeat constructor.
    + exact Hlen.
Defined.

Lemma register_vendor_duplicate_after_race_witness :
  let st :=
    schedule literal_search [0; 1; 0; 1]
      ([register_vendor denso; register_vendor denso], empty_db) in
  run literal_search (register_vendor denso) st.2
  = (inl (HTTPException 400 "Vendor ID already exists"), st.2) ∧
  length (filter (has_vendor_id "V-DENSO-09") (vendor_collection st.2)) = 2.
Proof.
  destruct (register_vendor_duplicate_after_race literal_search empty_db
              denso denso denso) as (_ & Hrun & Hlen).
  - reflexivity.
  - reflexivity.
  - intros d Hd. by apply elem_of_nil in Hd.
  - split; [exact Hrun | exact Hlen].
Defined.

Lemma get_routes_change_nothing_witness :
  serve literal_search (toyota_db two_listings)
    (GET_get_center_by_name "Hero Hub Delhi")
  = toyota_db two_listings.
Proof.
  apply (get_routes_change_nothing literal_search
           (GET_get_center_by_name "Hero Hub Delhi") (toyota_db two_listings)).
  exact I.
Defined.

Lemma failed_requests_change_nothing_witness :
  serve literal_search (toyota_db two_listings)
    (POST_report_failure "TOYOTA_202403A001" "00000-00000")
  = toyota_db two_listings.
Proof.
  apply (failed_requests_change_nothing literal_search
           (POST_report_failure "TOYOTA_202403A001" "00000-00000")
           (toyota_db two_listings)
           (HTTPException 400 "Part SKU not found in this batch")).
  reflexivity.
Defined.
